(** * bin/cygwin_tty.py: the raw-mode terminal bridge

    A shallow embedding of [main] from [bin/cygwin_tty.py] together with the
    part of the operating system it talks to: the descriptor table, the
    terminal driver (attributes, geometry, pending input and output), the
    two standard streams and the record of the system calls issued.

    The Python code is written in a small state-and-exception monad.  The
    future of the environment is explicit: a table saying which system call
    fails with which exception, and a script giving, for each return of
    [select.select], the bytes that reached the terminal and which files
    are readable.  When the script is used up the process stays suspended
    in [select.select]. *)

From Stdlib Require Import String Strings.Byte.
From Stdlib Require Import ZArith List Bool Lia.
Import ListNotations.
Local Open Scope Z_scope.

Set Implicit Arguments.

(** ** Bytes and [struct.pack('<LL', ...)] *)

Definition bytes := list byte.

Definition byte_of_Z (z : Z) : byte :=
  match Byte.of_N (Z.to_N (z mod 256)) with
  | Some b => b
  | None => x00
  end.

Definition Z_of_byte (b : byte) : Z := Z.of_N (Byte.to_N b).

(** Python's [len]. *)
Definition len {A} (l : list A) : Z := Z.of_nat (length l).

(** One ['L'] field in standard size and little-endian order: four bytes,
    least significant first. *)
Definition le32 (x : Z) : bytes :=
  [ byte_of_Z x;
    byte_of_Z (x / 256);
    byte_of_Z (x / 65536);
    byte_of_Z (x / 16777216) ].

(** The unsigned number a little-endian byte string stands for. *)
Fixpoint le_value (bs : bytes) : Z :=
  match bs with
  | [] => 0
  | b :: bs' => Z_of_byte b + 256 * le_value bs'
  end.

Definition is_uint32 (x : Z) : bool := (0 <=? x) && (x <? 4294967296).

(** ** Exceptions and outcomes *)

Inductive exn : Type :=
| OSError (errno : Z)
| TermiosError (errno : Z)
| StructError
| KeyboardInterrupt.

Definition ENOENT : Z := 2.
Definition EBADF : Z := 9.
Definition ENOTTY : Z := 25.

(** How a computation ends: with a value, with a raised exception, or not
    at all because the process is suspended in a readiness wait that the
    environment never ends. *)
Inductive outcome (A : Type) : Type :=
| Ok (a : A)
| Raise (e : exn)
| Blocked.

Arguments Raise {A} e.
Arguments Blocked {A}.

(** ** Terminal attributes

    [termios.tcgetattr] returns the list
    [[iflag, oflag, cflag, lflag, ispeed, ospeed, cc]]; the fields are named
    here by their position in that list. *)

Record termios_attr : Type := Attr {
  iflag : Z;           (* index 0 *)
  oflag : Z;           (* index 1 *)
  cflag : Z;           (* index 2 *)
  lflag : Z;           (* index 3 *)
  ispeed : Z;          (* index 4 *)
  ospeed : Z;          (* index 5 *)
  cc : list Z          (* index 6 *)
}.

(** [new[0] = v] and [new[3] = v] on the copy made by [list(old)]. *)
Definition set_item0 (a : termios_attr) (v : Z) : termios_attr :=
  Attr v (oflag a) (cflag a) (lflag a) (ispeed a) (ospeed a) (cc a).

Definition set_item3 (a : termios_attr) (v : Z) : termios_attr :=
  Attr (iflag a) (oflag a) (cflag a) v (ispeed a) (ospeed a) (cc a).

(** [list(old)]: a new list with the same items; [old] is not touched by
    later assignments to the copy. *)
Definition list_copy (a : termios_attr) : termios_attr := a.

(** The [when] argument of [termios.tcsetattr]. *)
Inductive tc_when : Type := TCSANOW | TCSADRAIN | TCSAFLUSH.

Inductive open_flags : Type := O_RDONLY | O_WRONLY | O_RDWR.

(** ** The operating system seen by the process *)

(** What a descriptor refers to. *)
Inductive file : Type := FStdin | FStdout | FTty.

Record terminal_size : Type := TerminalSize { columns : Z; lines : Z }.

(** A completed system call with its arguments and its result. *)
Inductive event : Type :=
| EvOpen (path : string) (flags : open_flags) (res : outcome Z)
| EvGetTerminalSize (fd : Z) (res : outcome terminal_size)
| EvWrite (fd : Z) (buf : bytes) (res : outcome Z)
| EvTcGetAttr (fd : Z) (res : outcome termios_attr)
| EvTcSetAttr (fd : Z) (when : tc_when) (a : termios_attr) (res : outcome unit)
| EvSelect (rlist : list Z) (res : outcome (list Z))
| EvRead (fd : Z) (n : Z) (res : outcome bytes).

Record world : Type := World {
  w_attr : termios_attr;        (* attributes held by the terminal driver *)
  w_cols : Z;                   (* terminal geometry *)
  w_rows : Z;
  w_tty_in : bytes;             (* input received and not yet read *)
  w_tty_outq : bytes;           (* output written and not yet transmitted *)
  w_tty_sent : bytes;           (* output transmitted *)
  w_stdin : bytes;              (* content available on standard input *)
  w_out : bytes;                (* bytes delivered to standard output *)
  w_fds : list (Z * file);      (* descriptor table of the process *)
  w_calls : list event;         (* system calls completed, oldest first *)
  w_faults : nat -> option exn  (* the k-th system call raises this *)
}.

Definition set_attr (a : termios_attr) (w : world) : world :=
  World a (w_cols w) (w_rows w) (w_tty_in w) (w_tty_outq w) (w_tty_sent w)
        (w_stdin w) (w_out w) (w_fds w) (w_calls w) (w_faults w).

Definition set_tty_in (q : bytes) (w : world) : world :=
  World (w_attr w) (w_cols w) (w_rows w) q (w_tty_outq w) (w_tty_sent w)
        (w_stdin w) (w_out w) (w_fds w) (w_calls w) (w_faults w).

Definition drain (w : world) : world :=
  World (w_attr w) (w_cols w) (w_rows w) (w_tty_in w) []
        (w_tty_sent w ++ w_tty_outq w)
        (w_stdin w) (w_out w) (w_fds w) (w_calls w) (w_faults w).

Definition set_stdin (s : bytes) (w : world) : world :=
  World (w_attr w) (w_cols w) (w_rows w) (w_tty_in w) (w_tty_outq w)
        (w_tty_sent w) s (w_out w) (w_fds w) (w_calls w) (w_faults w).

Definition set_out (o : bytes) (w : world) : world :=
  World (w_attr w) (w_cols w) (w_rows w) (w_tty_in w) (w_tty_outq w)
        (w_tty_sent w) (w_stdin w) o (w_fds w) (w_calls w) (w_faults w).

Definition set_fds (t : list (Z * file)) (w : world) : world :=
  World (w_attr w) (w_cols w) (w_rows w) (w_tty_in w) (w_tty_outq w)
        (w_tty_sent w) (w_stdin w) (w_out w) t (w_calls w) (w_faults w).

Definition log (ev : event) (w : world) : world :=
  World (w_attr w) (w_cols w) (w_rows w) (w_tty_in w) (w_tty_outq w)
        (w_tty_sent w) (w_stdin w) (w_out w) (w_fds w) (w_calls w ++ [ev])
        (w_faults w).

Fixpoint fd_lookup (fd : Z) (t : list (Z * file)) : option file :=
  match t with
  | [] => None
  | (k, f) :: t' => if k =? fd then Some f else fd_lookup fd t'
  end.

(** Python's [x in r] on a list of integers. *)
Definition py_in (x : Z) (r : list Z) : bool := existsb (Z.eqb x) r.

(** A new descriptor is the lowest number not in use. *)
Fixpoint lowest_from (fuel : nat) (n : Z) (used : list Z) : Z :=
  match fuel with
  | O => n
  | S fuel' =>
      if py_in n used then lowest_from fuel' (n + 1) used else n
  end.

Definition lowest_unused (used : list Z) : Z :=
  lowest_from (length used) 0 used.

(** ** The monad *)

Definition M (A : Type) : Type := world -> outcome A * world.

Definition ret {A} (a : A) : M A := fun w => (Ok a, w).

Definition raise {A} (e : exn) : M A := fun w => (Raise e, w).

Definition bind {A B} (c : M A) (k : A -> M B) : M B :=
  fun w =>
    match c w with
    | (Ok a, w1) => k a w1
    | (Raise e, w1) => (Raise e, w1)
    | (Blocked, w1) => (Blocked, w1)
    end.

Notation "x <- c ;; k" := (bind c (fun x => k))
  (at level 61, c at next level, right associativity).
Notation "c ;;; k" := (bind c (fun _ => k))
  (at level 61, right associativity).

(** [try: body finally: fin].  The clean-up runs however the body ends,
    unless the body never ends.  An exception of the clean-up replaces the
    outcome of the body. *)
Definition try_finally {A} (body : M A) (fin : M unit) : M A :=
  fun w =>
    match body w with
    | (Blocked, w1) => (Blocked, w1)
    | (o, w1) =>
        match fin w1 with
        | (Ok _, w2) => (o, w2)
        | (Raise e, w2) => (Raise e, w2)
        | (Blocked, w2) => (Blocked, w2)
        end
    end.

(** [try: body except: handler], with a bare [except] that catches every
    exception. *)
Definition try_except {A} (body : M A) (handler : M A) : M A :=
  fun w =>
    match body w with
    | (Raise _, w1) => handler w1
    | r => r
    end.

(** A system call: the environment may make it fail; the completed call is
    recorded. *)
Definition syscall {A} (mk : outcome A -> event)
    (run : world -> outcome A * world) : M A :=
  fun w =>
    match w_faults w (length (w_calls w)) with
    | Some e => (Raise e, log (mk (Raise e)) w)
    | None => let (o, w1) := run w in (o, log (mk o) w1)
    end.

(** ** The library calls used by [main] *)

Definition os_open (path : string) (flags : open_flags) : M Z :=
  syscall (EvOpen path flags)
    (fun w =>
       if String.eqb path "/dev/tty" then
         let fd := lowest_unused (map fst (w_fds w)) in
         (Ok fd, set_fds ((fd, FTty) :: w_fds w) w)
       else (Raise (OSError ENOENT), w)).

Definition os_get_terminal_size (fd : Z) : M terminal_size :=
  syscall (EvGetTerminalSize fd)
    (fun w =>
       match fd_lookup fd (w_fds w) with
       | Some FTty => (Ok (TerminalSize (w_cols w) (w_rows w)), w)
       | Some _ => (Raise (OSError ENOTTY), w)
       | None => (Raise (OSError EBADF), w)
       end).

(** [struct.pack('<LL', a, b)]: no system call; raises [struct.error] when
    an argument does not fit an unsigned 32-bit field. *)
Definition struct_pack_LL (a b : Z) : M bytes :=
  if is_uint32 a && is_uint32 b then ret (le32 a ++ le32 b)
  else raise StructError.

(** [os.write]: standard output is a blocking stream taking the short
    requests made here whole. *)
Definition os_write (fd : Z) (buf : bytes) : M Z :=
  syscall (EvWrite fd buf)
    (fun w =>
       match fd_lookup fd (w_fds w) with
       | Some FStdout => (Ok (len buf), set_out (w_out w ++ buf) w)
       | _ => (Raise (OSError EBADF), w)
       end).

Definition termios_tcgetattr (fd : Z) : M termios_attr :=
  syscall (EvTcGetAttr fd)
    (fun w =>
       match fd_lookup fd (w_fds w) with
       | Some FTty => (Ok (w_attr w), w)
       | Some _ => (Raise (TermiosError ENOTTY), w)
       | None => (Raise (TermiosError EBADF), w)
       end).

(** The effect of [when] on the terminal queues before the attributes
    change: [TCSADRAIN] waits until pending output is transmitted,
    [TCSAFLUSH] does the same and discards pending input. *)
Definition apply_when (when : tc_when) (w : world) : world :=
  match when with
  | TCSANOW => w
  | TCSADRAIN => drain w
  | TCSAFLUSH => set_tty_in [] (drain w)
  end.

Definition termios_tcsetattr (fd : Z) (when : tc_when) (a : termios_attr)
    : M unit :=
  syscall (EvTcSetAttr fd when a)
    (fun w =>
       match fd_lookup fd (w_fds w) with
       | Some FTty => (Ok tt, set_attr a (apply_when when w))
       | Some _ => (Raise (TermiosError ENOTTY), w)
       | None => (Raise (TermiosError EBADF), w)
       end).

(** One return of the readiness wait, as the environment decides it. *)
Record wakeup : Type := Wakeup {
  wk_arrive : bytes;     (* input reaching the terminal before the return *)
  wk_tty : bool;         (* the terminal is readable *)
  wk_stdin : bool        (* standard input is readable *)
}.

Definition readable (k : wakeup) (w : world) (fd : Z) : bool :=
  match fd_lookup fd (w_fds w) with
  | Some FTty => wk_tty k
  | Some FStdin => wk_stdin k
  | _ => false
  end.

Definition is_open (w : world) (fd : Z) : bool :=
  match fd_lookup fd (w_fds w) with Some _ => true | None => false end.

(** [select.select(rlist, [], [])] returning on wakeup [k]: the members of
    [rlist] whose file is readable, in the order of [rlist]. *)
Definition select_select (rlist : list Z) (k : wakeup) : M (list Z) :=
  fun w =>
    syscall (EvSelect rlist)
      (fun w1 =>
         if forallb (is_open w1) rlist
         then (Ok (filter (readable k w1) rlist), w1)
         else (Raise (OSError EBADF), w1))
      (set_tty_in (w_tty_in w ++ wk_arrive k) w).

(** [os.read(fd, n)]: at most [n] bytes from the front of what the file
    holds.  The terminal was reported readable either for pending input or
    because it hung up, so a read finding nothing pending returns [b'']. *)
Definition os_read (fd : Z) (n : Z) : M bytes :=
  syscall (EvRead fd n)
    (fun w =>
       match fd_lookup fd (w_fds w) with
       | Some FTty =>
           (Ok (firstn (Z.to_nat n) (w_tty_in w)),
            set_tty_in (skipn (Z.to_nat n) (w_tty_in w)) w)
       | Some FStdin =>
           (Ok (firstn (Z.to_nat n) (w_stdin w)),
            set_stdin (skipn (Z.to_nat n) (w_stdin w)) w)
       | _ => (Raise (OSError EBADF), w)
       end).

(** ** [main] *)

Definition STDIN : Z := 0.
Definition STDOUT : Z := 1.

(** Which [break] left the loop: line 32 (the read raised), line 34 (the
    read returned nothing) or line 38 (standard input was readable). *)
Inductive exit_site : Type := AtReadError | AtEof | AtStdin.

Inductive ctl : Type := Next | Break (s : exit_site).

Section Main.

(** The flag masks of the platform's [termios] module. *)
Variables ICRNL ECHO ICANON ISIG : Z.

(** Lines 19 to 21. *)
Definition raw_attr (old : termios_attr) : termios_attr :=
  let new := list_copy old in
  let new := set_item0 new (Z.land (iflag new) (Z.lnot ICRNL)) in
  let new :=
    set_item3 new
      (Z.land (lflag new) (Z.lnot (Z.lor (Z.lor ECHO ICANON) ISIG))) in
  new.

(** The body of [while True], lines 27 to 38, for one return of
    [select.select]. *)
Definition iteration (fd : Z) (k : wakeup) : M ctl :=
  r <- select_select [STDIN; fd] k ;;
  c <- (if py_in fd r then
          got <- try_except
                   (buf <- os_read fd 64 ;; ret (Some buf))
                   (ret None) ;;
          match got with
          | None => ret (Break AtReadError)
          | Some buf =>
              if len buf =? 0 then ret (Break AtEof)
              else os_write STDOUT buf ;;; ret Next
          end
        else ret Next) ;;
  match c with
  | Break s => ret (Break s)
  | Next =>
      if py_in STDIN r then
        os_write STDOUT [x00] ;;; ret (Break AtStdin)
      else ret Next
  end.

Fixpoint loop (fd : Z) (script : list wakeup) : M exit_site :=
  match script with
  | [] => fun w => (Blocked, w)
  | k :: script' =>
      c <- iteration fd k ;;
      match c with
      | Break s => ret s
      | Next => loop fd script'
      end
  end.

Definition main (script : list wakeup) : M unit :=
  fd <- os_open "/dev/tty" O_RDONLY ;;
  size <- os_get_terminal_size fd ;;
  hdr <- struct_pack_LL (columns size) (lines size) ;;
  os_write STDOUT hdr ;;;
  old <- termios_tcgetattr fd ;;
  let new := raw_attr old in
  try_finally
    (termios_tcsetattr fd TCSAFLUSH new ;;;
     loop fd script ;;;
     ret tt)
    (termios_tcsetattr fd TCSAFLUSH old).

(** The [try] statement of [main], lines 23 to 40, for the descriptor and
    the saved attributes computed before it. *)
Definition session (fd : Z) (old : termios_attr) (script : list wakeup)
    : M unit :=
  try_finally
    (termios_tcsetattr fd TCSAFLUSH (raw_attr old) ;;;
     loop fd script ;;;
     ret tt)
    (termios_tcsetattr fd TCSAFLUSH old).

(** [main] from line 18 on. *)
Definition after_header (fd : Z) (script : list wakeup) : M unit :=
  old <- termios_tcgetattr fd ;; session fd old script.

(** [main] from line 15 on. *)
Definition after_open (fd : Z) (script : list wakeup) : M unit :=
  size <- os_get_terminal_size fd ;;
  hdr <- struct_pack_LL (columns size) (lines size) ;;
  os_write STDOUT hdr ;;;
  after_header fd script.

(** *** The worlds passed through at startup *)

(** The descriptor [os.open] hands out in world [w]. *)
Definition tty_fd (w : world) : Z := lowest_unused (map fst (w_fds w)).

Definition header (w : world) : bytes := le32 (w_cols w) ++ le32 (w_rows w).

Definition opened (w : world) : world :=
  log (EvOpen "/dev/tty" O_RDONLY (Ok (tty_fd w)))
      (set_fds ((tty_fd w, FTty) :: w_fds w) w).

Definition sized (w : world) : world :=
  log (EvGetTerminalSize (tty_fd w)
         (Ok (TerminalSize (w_cols w) (w_rows w))))
      (opened w).

Definition greeted (w : world) : world :=
  log (EvWrite STDOUT (header w) (Ok 8))
      (set_out (w_out w ++ header w) (sized w)).

Definition at_try (w : world) : world :=
  log (EvTcGetAttr (tty_fd w) (Ok (w_attr w))) (greeted w).

Definition in_raw_mode (w : world) : world :=
  log (EvTcSetAttr (tty_fd w) TCSAFLUSH (raw_attr (w_attr w)) (Ok tt))
      (set_attr (raw_attr (w_attr w)) (apply_when TCSAFLUSH (at_try w))).

End Main.

(** ** Vocabulary of the statements *)

(** Among the members of [used], those not below [n]. *)
Definition at_or_above (n : Z) (used : list Z) : list Z :=
  filter (fun x => n <=? x) used.

(** The calls completed between world [w] and a later world [w']. *)
Definition new_calls (w w' : world) : list event :=
  skipn (length (w_calls w)) (w_calls w').

(** The byte strings returned by the successful reads, oldest first. *)
Definition read_chunks (evs : list event) : list bytes :=
  flat_map (fun ev => match ev with
                      | EvRead _ _ (Ok buf) => [buf]
                      | _ => []
                      end) evs.

Definition write_ok (ev : event) : bool :=
  match ev with
  | EvWrite _ _ (Ok _) => true
  | EvWrite _ _ _ => false
  | _ => true
  end.

(** No write among [evs] failed. *)
Definition writes_ok (evs : list event) : bool := forallb write_ok evs.

(** The [k]-th of the next system calls does not fail. *)
Definition calls_succeed (w : world) (n : nat) : Prop :=
  forall k, (k < n)%nat -> w_faults w (length (w_calls w) + k) = None.

(** Descriptor 1 is the standard output and the geometry fits the header. *)
Record startup_ok (w : world) : Prop := {
  st_stdout : fd_lookup STDOUT (w_fds w) = Some FStdout;
  st_cols : is_uint32 (w_cols w) = true;
  st_rows : is_uint32 (w_rows w) = true
}.

Record frame (w w' : world) : Prop := {
  fr_fds : w_fds w' = w_fds w;
  fr_faults : w_faults w' = w_faults w;
  fr_cols : w_cols w' = w_cols w;
  fr_rows : w_rows w' = w_rows w;
  fr_calls : exists evs, w_calls w' = w_calls w ++ evs;
  fr_out : exists rest, w_out w' = w_out w ++ rest
}.

(** A computation respects a relation when every run takes a world to a
    related one. *)
Definition respects (R : world -> world -> Prop) {A} (c : M A) : Prop :=
  forall w, R w (snd (c w)).

(** What one call adds to the record and to standard output. *)
Definition call_effect (ev : event) (sent : bytes) (w w' : world) : Prop :=
  w_calls w' = w_calls w ++ [ev] /\ w_out w' = w_out w ++ sent.

Definition not_blocked {A} (o : outcome A) : Prop := o <> Blocked.

(** The byte the loop adds after the relayed data: [b'\x00'] after the
    [break] of line 38, nothing otherwise. *)
Definition terminator (o : outcome exit_site) : bytes :=
  match o with
  | Ok AtStdin => [x00]
  | _ => []
  end.

Definition ctl_terminator (o : outcome ctl) : bytes :=
  match o with
  | Ok (Break AtStdin) => [x00]
  | _ => []
  end.

Definition is_ok {A} (o : outcome A) : bool :=
  match o with Ok _ => true | _ => false end.

(** Between [w] and [w'] the reads returned chunks of at most 64 bytes; if
    no write failed, standard output grew by these chunks in order and then
    by [term]; [ok] runs have no failed write. *)
Definition relayed (term : bytes) (ok : bool) (w w' : world) : Prop :=
  exists evs,
    w_calls w' = w_calls w ++ evs /\
    Forall (fun c => len c <= 64) (read_chunks evs) /\
    (writes_ok evs = true ->
     w_out w' = w_out w ++ concat (read_chunks evs) ++ term) /\
    (ok = true -> writes_ok evs = true).

(** ** Concrete worlds

    The masks of Linux ([ICRNL = 0o400], [ECHO = 0o10], [ICANON = 0o2],
    [ISIG = 0o1]), an environment in which no call fails, and an 80 x 24
    terminal in its usual cooked mode with the three standard descriptors
    open. *)

Definition linux_raw_attr := raw_attr 256 8 2 1.
Definition linux_main := main 256 8 2 1.
Definition linux_in_raw_mode := in_raw_mode 256 8 2 1.

Definition quiet : nat -> option exn := fun _ => None.

(** The call numbered [k] fails with [e]; no other call fails. *)
Definition failing (k : nat) (e : exn) : nat -> option exn :=
  fun i => if Nat.eqb i k then Some e else None.

Definition cooked : termios_attr := Attr 1280 5 191 35387 15 15 [3; 28; 127].

Definition w0 : world :=
  World cooked 80 24 [] [] [] [x41; x42] []
        [(0, FStdin); (1, FStdout); (2, FStdout)] [] quiet.

Definition with_faults (f : nat -> option exn) (w : world) : world :=
  World (w_attr w) (w_cols w) (w_rows w) (w_tty_in w) (w_tty_outq w)
        (w_tty_sent w) (w_stdin w) (w_out w) (w_fds w) (w_calls w) f.

Definition hello : bytes := [x68; x65; x6c; x6c; x6f].

(** ** One wakeup that ends the loop *)

(** The descriptors [select.select] returns on wakeup [k] in world [w]. *)
Definition ready (fd : Z) (k : wakeup) (w : world) : list Z :=
  filter (readable k w) [STDIN; fd].

(** The world in which [select.select] has returned on wakeup [k]. *)
Definition woken (fd : Z) (k : wakeup) (w : world) : world :=
  log (EvSelect [STDIN; fd] (Ok (ready fd k w)))
      (set_tty_in (w_tty_in w ++ wk_arrive k) w).

(** On wakeup [k] the loop is left at [site], having completed the calls
    [evs] and sent [sent] to standard output. *)
Record ends_loop (site : exit_site) (evs : list event) (sent : bytes)
    (fd : Z) (k : wakeup) (script : list wakeup) (w : world) : Prop := {
  el_exit : fst (loop fd (k :: script) w) = Ok site;
  el_calls : w_calls (snd (loop fd (k :: script) w)) = w_calls w ++ evs;
  el_out : w_out (snd (loop fd (k :: script) w)) = w_out w ++ sent;
  el_attr : w_attr (snd (loop fd (k :: script) w)) = w_attr w;
  el_fds : w_fds (snd (loop fd (k :: script) w)) = w_fds w;
  el_faults : w_faults (snd (loop fd (k :: script) w)) = w_faults w
}.

(** ** Computations that do not look at the content of standard input

    With descriptor table [t], running [c] on a world with another content
    on standard input gives the same outcome and the same world but for
    that content, and leaves the table as it is. *)
Definition stdin_blind (t : list (Z * file)) {A} (c : M A) : Prop :=
  forall s w,
    w_fds w = t ->
    c (set_stdin s w) = (fst (c w), set_stdin s (snd (c w))) /\
    w_fds (snd (c w)) = t.

(** ** Three statements of the specification, as it words them *)

Section AsStated.

Variables ICRNL ECHO ICANON ISIG : Z.

(** After the header, standard output holds the chunks read and nothing
    else. *)
Definition output_is_chunks_only (script : list wakeup) (w : world) : Prop :=
  let w' := snd (main ICRNL ECHO ICANON ISIG script w) in
  w_out w' =
  w_out w ++ header w ++ concat (read_chunks (new_calls w w')).

(** When [main] has ended, the descriptor of the terminal is closed. *)
Definition descriptor_closed_at_exit (script : list wakeup) (w : world)
    : Prop :=
  is_open (snd (main ICRNL ECHO ICANON ISIG script w)) (tty_fd w) = false.

End AsStated.

(** On a wakeup reporting both files readable the terminal branch runs,
    then the standard-input branch writes the 0x00 byte and ends the
    loop. *)
Definition both_branches_handled (fd : Z) (k : wakeup)
    (script : list wakeup) (w : world) : Prop :=
  fst (loop fd (k :: script) w) = Ok AtStdin /\
  exists buf, w_out (snd (loop fd (k :: script) w)) = w_out w ++ buf ++ [x00].

(** ** Concrete environments *)

(** The terminal delivers [hello]; then standard input becomes readable. *)
Definition hello_then_stop : list wakeup :=
  [Wakeup hello true false; Wakeup [] false true].

(** Standard input is readable at once. *)
Definition stop_at_once : list wakeup := [Wakeup [] false true].

(** Both files are readable and the terminal has reached its end. *)
Definition both_at_eof : wakeup := Wakeup [] true true.

(** Both files are readable and the terminal delivers [hello]. *)
Definition both_with_hello : wakeup := Wakeup hello true true.

(** A terminal as wide as the header can say, with no rows. *)
Definition w_wide : world :=
  World cooked 4294967295 0 [] [] [] [] []
        [(0, FStdin); (1, FStdout); (2, FStdout)] [] quiet.

(** The fourth call, [termios.tcgetattr], fails with [EIO]. *)
Definition w_getattr_fails : world :=
  with_faults (failing 3 (TermiosError 5)) w0.

(** The eighth call, the write of the first chunk, fails with [EPIPE]. *)
Definition w_pipe_breaks : world :=
  with_faults (failing 7 (OSError 32)) w0.

(** In raw mode, the next read fails with [EIO]. *)
Definition w_read_fails : world :=
  with_faults (failing 6 (OSError 5)) (linux_in_raw_mode w0).

(** A terminal with a typed-ahead ^C and a line of output in flight. *)
Definition w_pending : world :=
  World cooked 80 24 [x03] [x0a] [] [] []
        [(0, FStdin); (1, FStdout); (2, FStdout)] [] quiet.

(** ** Vocabulary of the further properties *)

(** Nothing of the terminal differs between [w] and [w']: attributes,
    geometry and queues. *)
Record terminal_untouched (w w' : world) : Prop := {
  tu_attr : w_attr w' = w_attr w;
  tu_cols : w_cols w' = w_cols w;
  tu_rows : w_rows w' = w_rows w;
  tu_in : w_tty_in w' = w_tty_in w;
  tu_outq : w_tty_outq w' = w_tty_outq w;
  tu_sent : w_tty_sent w' = w_tty_sent w
}.

(** The attributes and the output side of the terminal are the same in
    [w] and [w']. *)
Record modes_kept (w w' : world) : Prop := {
  mk_attr : w_attr w' = w_attr w;
  mk_outq : w_tty_outq w' = w_tty_outq w;
  mk_sent : w_tty_sent w' = w_tty_sent w
}.

(** Between [w] and [w'] the wakeups delivered [arrived]; what was read
    and what is still pending make up what was pending and what arrived. *)
Definition conserved (arrived : bytes) (w w' : world) : Prop :=
  exists evs,
    w_calls w' = w_calls w ++ evs /\ w_fds w' = w_fds w /\
    concat (read_chunks evs) ++ w_tty_in w' = w_tty_in w ++ arrived.


(** The calls [main] makes, given the descriptor [fd] of the terminal:
    it opens only the terminal device, read-only; queries and sets
    attributes only on [fd] and sets them only with [TCSAFLUSH]; waits only
    on standard input and [fd]; reads only from [fd], at most 64 bytes at
    a time; writes only to standard output, between 1 and 64 bytes at a
    time. *)
Definition well_formed_call (fd : Z) (ev : event) : Prop :=
  match ev with
  | EvOpen path flags _ => path = "/dev/tty"%string /\ flags = O_RDONLY
  | EvGetTerminalSize f _ => f = fd
  | EvWrite f buf _ => f = STDOUT /\ 1 <= len buf <= 64
  | EvTcGetAttr f _ => f = fd
  | EvTcSetAttr f when _ _ => f = fd /\ when = TCSAFLUSH
  | EvSelect rlist _ => rlist = [STDIN; fd]
  | EvRead f n _ => f = fd /\ n = 64
  end.

(** Between [w] and [w'] only such calls were made. *)
Definition traced (fd : Z) (w w' : world) : Prop :=
  exists evs,
    w_calls w' = w_calls w ++ evs /\ Forall (well_formed_call fd) evs.

(** ** Further concrete environments *)

(** The eleventh call of the run on [hello_then_stop], the restoring
    [tcsetattr], fails with [EIO]. *)
Definition w_restore_fails : world :=
  with_faults (failing 10 (TermiosError 5)) w0.

(** The first call, [os.open], fails with [ENXIO]. *)
Definition w_open_fails : world := with_faults (failing 0 (OSError 6)) w0.

(** The fifth call, the [tcsetattr] that enters raw mode, fails. *)
Definition w_switch_fails : world :=
  with_faults (failing 4 (TermiosError 5)) w0.

(** Descriptor 0 is closed. *)
Definition w_no_stdin : world :=
  World cooked 80 24 [] [] [] [] [] [(1, FStdout); (2, FStdout)] [] quiet.

(** Input arrives while only standard input is reported readable. *)
Definition typed_but_stopped : list wakeup := [Wakeup hello false true].

(** Seventy bytes arrive at once; the terminal is readable twice, then
    standard input is. *)
Definition seventy : bytes := repeat x61 70.

Definition long_input : list wakeup :=
  [Wakeup seventy true false; Wakeup [] true false; Wakeup [] false true].

(** ** Facts about bytes and the header encoding *)

Lemma Z_of_byte_of_Z (z : Z) : Z_of_byte (byte_of_Z z) = z mod 256.
Proof.
  unfold Z_of_byte, byte_of_Z.
  assert (Hr : 0 <= z mod 256 < 256) by (apply Z.mod_pos_bound; lia).
  destruct (Byte.of_N (Z.to_N (z mod 256))) as [b|] eqn:E.
  - apply Byte.to_of_N in E. rewrite E. lia.
  - apply Byte.of_N_None_iff in E. lia.
Qed.

Lemma length_le32 (x : Z) : length (le32 x) = 4%nat.
Proof. reflexivity. Qed.

Lemma le_value_le32 (x : Z) :
  0 <= x < 4294967296 -> le_value (le32 x) = x.
Proof.
  intros Hx. unfold le32, le_value. rewrite !Z_of_byte_of_Z.
  assert (H3 : x / 16777216 < 256)
    by (apply Z.div_lt_upper_bound; lia).
  assert (H3' : 0 <= x / 16777216) by (apply Z.div_pos; lia).
  rewrite (Z.mod_small (x / 16777216)) by lia.
  pose proof (Z.div_mod x 256 ltac:(lia)) as E0.
  pose proof (Z.div_mod (x / 256) 256 ltac:(lia)) as E1.
  pose proof (Z.div_mod (x / 65536) 256 ltac:(lia)) as E2.
  replace (x / 65536) with (x / 256 / 256) in *
    by (rewrite Z.div_div by lia; reflexivity).
  replace (x / 16777216) with (x / 256 / 256 / 256) in *
    by (rewrite !Z.div_div by lia; reflexivity).
  lia.
Qed.

Lemma is_uint32_spec (x : Z) :
  is_uint32 x = true <-> 0 <= x <= 4294967295.
Proof. unfold is_uint32. rewrite andb_true_iff, Z.leb_le, Z.ltb_lt. lia. Qed.

(** ** Facts about the descriptor table *)

Lemma py_in_spec (x : Z) (r : list Z) : py_in x r = true <-> In x r.
Proof.
  unfold py_in. rewrite existsb_exists. split.
  - intros [y [Hy E]]. apply Z.eqb_eq in E. now subst.
  - intros H. exists x. split; [assumption | apply Z.eqb_refl].
Qed.

Lemma at_or_above_step (n : Z) (used : list Z) :
  In n used ->
  (length (at_or_above (n + 1) used) < length (at_or_above n used))%nat.
Proof.
  unfold at_or_above. induction used as [|x used IH]; simpl; [tauto|].
  intros [->|Hin].
  - replace (n + 1 <=? n) with false by (symmetry; apply Z.leb_gt; lia).
    rewrite Z.leb_refl. simpl.
    clear IH. induction used as [|y used IH]; simpl; [lia|].
    destruct (Z.leb_spec (n + 1) y), (Z.leb_spec n y); simpl; lia.
  - specialize (IH Hin).
    destruct (Z.leb_spec (n + 1) x), (Z.leb_spec n x); simpl; lia.
Qed.

Lemma lowest_from_fresh (fuel : nat) :
  forall n used,
    (length (at_or_above n used) <= fuel)%nat ->
    ~ In (lowest_from fuel n used) used.
Proof.
  induction fuel as [|fuel IH]; intros n used Hlen; simpl.
  - intros Hin.
    assert (Hm : In n (at_or_above n used))
      by (apply filter_In; split; [assumption | apply Z.leb_refl]).
    destruct (at_or_above n used); [contradiction | simpl in Hlen; lia].
  - destruct (py_in n used) eqn:E.
    + apply IH. apply py_in_spec in E.
      pose proof (at_or_above_step n used E). lia.
    + intros Hin. apply py_in_spec in Hin. congruence.
Qed.

Lemma lowest_unused_fresh (used : list Z) : ~ In (lowest_unused used) used.
Proof.
  apply lowest_from_fresh. unfold at_or_above. apply filter_length_le.
Qed.

Lemma fd_lookup_in (fd : Z) (t : list (Z * file)) (f : file) :
  fd_lookup fd t = Some f -> In fd (map fst t).
Proof.
  induction t as [|[k g] t IH]; simpl; [discriminate|].
  destruct (Z.eqb_spec k fd); [now left | intros H; right; auto].
Qed.

Lemma tty_fd_not_open (w : world) (fd : Z) (f : file) :
  fd_lookup fd (w_fds w) = Some f -> tty_fd w <> fd.
Proof.
  intros H E. apply fd_lookup_in in H. rewrite <- E in H.
  exact (lowest_unused_fresh _ H).
Qed.

(** ** Reading the record of system calls *)

Lemma new_calls_app (w w' : world) (evs : list event) :
  w_calls w' = w_calls w ++ evs -> new_calls w w' = evs.
Proof.
  intros E. unfold new_calls. rewrite E.
  rewrite skipn_app, skipn_all, Nat.sub_diag. reflexivity.
Qed.

Lemma read_chunks_app (e1 e2 : list event) :
  read_chunks (e1 ++ e2) = read_chunks e1 ++ read_chunks e2.
Proof. apply flat_map_app. Qed.

Lemma writes_ok_app (e1 e2 : list event) :
  writes_ok (e1 ++ e2) = writes_ok e1 && writes_ok e2.
Proof. apply forallb_app. Qed.

(** ** What no call after [os.open] changes *)

Lemma frame_refl (w : world) : frame w w.
Proof.
  split; try reflexivity; exists []; symmetry; apply app_nil_r.
Qed.

Lemma frame_trans (w1 w2 w3 : world) :
  frame w1 w2 -> frame w2 w3 -> frame w1 w3.
Proof.
  intros [F1 A1 C1 R1 [e1 E1] [o1 O1]] [F2 A2 C2 R2 [e2 E2] [o2 O2]].
  split; try congruence.
  - exists (e1 ++ e2). rewrite E2, E1. symmetry. apply app_assoc.
  - exists (o1 ++ o2). rewrite O2, O1. symmetry. apply app_assoc.
Qed.

Lemma frame_log (ev : event) (w : world) : frame w (log ev w).
Proof.
  split; try reflexivity; simpl.
  - now exists [ev].
  - exists []. symmetry. apply app_nil_r.
Qed.

Section Respects.

Variable R : world -> world -> Prop.
Hypothesis R_refl : forall w, R w w.
Hypothesis R_trans : forall w1 w2 w3, R w1 w2 -> R w2 w3 -> R w1 w3.
Hypothesis R_log : forall ev w, R w (log ev w).

Lemma respects_ret {A} (a : A) : respects R (ret a).
Proof. intros w. apply R_refl. Qed.

Lemma respects_bind {A B} (c : M A) (k : A -> M B) :
  respects R c -> (forall a, respects R (k a)) -> respects R (bind c k).
Proof.
  intros Hc Hk w. unfold bind. specialize (Hc w).
  destruct (c w) as [[a|e|] w1]; simpl in *; try assumption.
  eapply R_trans; [exact Hc | apply Hk].
Qed.

Lemma respects_try_except {A} (body handler : M A) :
  respects R body -> respects R handler ->
  respects R (try_except body handler).
Proof.
  intros Hb Hh w. unfold try_except. specialize (Hb w).
  destruct (body w) as [[a|e|] w1]; simpl in *; try assumption.
  eapply R_trans; [exact Hb | apply Hh].
Qed.

Lemma respects_try_finally {A} (body : M A) (fin : M unit) :
  respects R body -> respects R fin ->
  respects R (try_finally body fin).
Proof.
  intros Hb Hf w. unfold try_finally. specialize (Hb w).
  destruct (body w) as [[a|e|] w1]; simpl in *; try assumption;
    specialize (Hf w1);
    destruct (fin w1) as [[u|e'|] w2]; simpl in *;
    eapply R_trans; eassumption.
Qed.

Lemma respects_syscall {A} (mk : outcome A -> event)
    (run : world -> outcome A * world) :
  respects R run -> respects R (syscall mk run).
Proof.
  intros Hr w. unfold syscall.
  destruct (w_faults w (length (w_calls w))); simpl; [apply R_log|].
  specialize (Hr w). destruct (run w) as [o w1]. simpl in *.
  eapply R_trans; [exact Hr | apply R_log].
Qed.

End Respects.

Ltac frame_call :=
  apply respects_syscall; [exact frame_trans | exact frame_log | ];
  intros w; simpl;
  repeat match goal with
         | |- context [match ?x with _ => _ end] => destruct x
         end;
  simpl; try apply frame_refl.

Lemma frame_write (fd : Z) (buf : bytes) : respects frame (os_write fd buf).
Proof.
  frame_call. split; try reflexivity; simpl.
  - exists []. symmetry. apply app_nil_r.
  - now exists buf.
Qed.

Lemma frame_read (fd n : Z) : respects frame (os_read fd n).
Proof.
  frame_call; split; try reflexivity; simpl;
    exists []; symmetry; apply app_nil_r.
Qed.

Lemma frame_tcgetattr (fd : Z) : respects frame (termios_tcgetattr fd).
Proof. frame_call. Qed.

Lemma frame_tcsetattr (fd : Z) (when : tc_when) (a : termios_attr) :
  respects frame (termios_tcsetattr fd when a).
Proof.
  frame_call; destruct when; split; try reflexivity; simpl;
    exists []; symmetry; apply app_nil_r.
Qed.

Lemma frame_select (rlist : list Z) (k : wakeup) :
  respects frame (select_select rlist k).
Proof.
  intros w. unfold select_select.
  apply frame_trans with (set_tty_in (w_tty_in w ++ wk_arrive k) w).
  - split; try reflexivity; simpl; exists []; symmetry; apply app_nil_r.
  - revert w. intros w0.
    generalize (set_tty_in (w_tty_in w0 ++ wk_arrive k) w0). clear w0.
    change (respects frame
              (syscall (EvSelect rlist)
                 (fun w1 => if forallb (is_open w1) rlist
                            then (Ok (filter (readable k w1) rlist), w1)
                            else (Raise (OSError EBADF), w1)))).
    frame_call.
Qed.

Lemma frame_iteration (fd : Z) (k : wakeup) : respects frame (iteration fd k).
Proof.
  unfold iteration.
  apply respects_bind; [exact frame_trans | apply frame_select | intros r].
  apply respects_bind; [exact frame_trans | | ].
  - destruct (py_in fd r); [| apply respects_ret; exact frame_refl].
    apply respects_bind; [exact frame_trans | | ].
    + apply respects_try_except; [exact frame_trans | | ].
      * apply respects_bind; [exact frame_trans | apply frame_read | intros buf].
        apply respects_ret; exact frame_refl.
      * apply respects_ret; exact frame_refl.
    + intros [buf|]; [| apply respects_ret; exact frame_refl].
      destruct (len buf =? 0); [apply respects_ret; exact frame_refl|].
      apply respects_bind; [exact frame_trans | apply frame_write | intros _].
      apply respects_ret; exact frame_refl.
  - intros [|s]; [| apply respects_ret; exact frame_refl].
    destruct (py_in STDIN r); [| apply respects_ret; exact frame_refl].
    apply respects_bind; [exact frame_trans | apply frame_write | intros _].
    apply respects_ret; exact frame_refl.
Qed.

Lemma frame_loop (fd : Z) (script : list wakeup) :
  respects frame (loop fd script).
Proof.
  induction script as [|k script IH]; simpl.
  - intros w. apply frame_refl.
  - apply respects_bind; [exact frame_trans | apply frame_iteration | intros [|s]].
    + exact IH.
    + apply respects_ret; exact frame_refl.
Qed.


(** ** Single system calls *)

Lemma syscall_ok {A} (mk : outcome A -> event)
    (run : world -> outcome A * world) (w : world) :
  w_faults w (length (w_calls w)) = None ->
  syscall mk run w = (fst (run w), log (mk (fst (run w))) (snd (run w))).
Proof. intros H. unfold syscall. rewrite H. now destruct (run w). Qed.

Lemma syscall_fault {A} (mk : outcome A -> event)
    (run : world -> outcome A * world) (w : world) (e : exn) :
  w_faults w (length (w_calls w)) = Some e ->
  syscall mk run w = (Raise e, log (mk (Raise e)) w).
Proof. intros H. unfold syscall. now rewrite H. Qed.

Lemma calls_succeed_head (w : world) (n : nat) :
  calls_succeed w (S n) -> w_faults w (length (w_calls w)) = None.
Proof. intros H. rewrite <- (H 0%nat) by lia. now rewrite Nat.add_0_r. Qed.

Lemma calls_succeed_next (w w' : world) (ev : event) (n : nat) :
  calls_succeed w (S n) ->
  w_faults w' = w_faults w -> w_calls w' = w_calls w ++ [ev] ->
  calls_succeed w' n.
Proof.
  intros H Hf Hc k Hk. rewrite Hf, Hc, length_app. simpl.
  rewrite <- (H (S k)) by lia. f_equal. lia.
Qed.

Lemma select_inv (rlist : list Z) (k : wakeup) (w : world) o w' :
  select_select rlist k w = (o, w') ->
  call_effect (EvSelect rlist o) [] w w' /\ not_blocked o.
Proof.
  unfold select_select, syscall, call_effect, not_blocked. simpl.
  destruct (w_faults w (length (w_calls w)));
    [| destruct (forallb _ rlist)];
    intros E; inversion E; subst; simpl;
    rewrite app_nil_r; repeat split; discriminate.
Qed.

Lemma os_read_inv (fd n : Z) (w : world) o w' :
  os_read fd n w = (o, w') ->
  call_effect (EvRead fd n o) [] w w' /\ not_blocked o /\
  forall buf, o = Ok buf -> (length buf <= Z.to_nat n)%nat.
Proof.
  unfold os_read, syscall, call_effect, not_blocked.
  destruct (w_faults w (length (w_calls w)));
    [| destruct (fd_lookup fd (w_fds w)) as [[| |]|]];
    intros E; inversion E; subst; cbn [log set_tty_in set_stdin w_calls w_out];
    rewrite app_nil_r; repeat split; try discriminate;
    intros buf Hb; inversion Hb; subst; apply firstn_le_length.
Qed.

Lemma os_write_inv (fd : Z) (buf : bytes) (w : world) o w' :
  os_write fd buf w = (o, w') ->
  call_effect (EvWrite fd buf o)
    (match o with Ok _ => buf | _ => [] end) w w' /\ not_blocked o.
Proof.
  unfold os_write, syscall, call_effect, not_blocked.
  destruct (w_faults w (length (w_calls w)));
    [| destruct (fd_lookup fd (w_fds w)) as [[| |]|]];
    intros E; inversion E; subst; cbn [log set_out w_calls w_out];
    rewrite ?app_nil_r; repeat split; discriminate.
Qed.

Lemma tcsetattr_inv (fd : Z) (when : tc_when) (a : termios_attr)
    (w : world) o w' :
  termios_tcsetattr fd when a w = (o, w') ->
  call_effect (EvTcSetAttr fd when a o) [] w w' /\ not_blocked o /\
  (o = Ok tt -> w_attr w' = a) /\
  (forall e, o = Raise e -> w_attr w' = w_attr w).
Proof.
  unfold termios_tcsetattr, syscall, call_effect, not_blocked.
  destruct (w_faults w (length (w_calls w)));
    [| destruct (fd_lookup fd (w_fds w)) as [[| |]|]];
    intros E; inversion E; subst; simpl;
    rewrite app_nil_r;
    repeat split; try discriminate; try reflexivity;
    destruct when; reflexivity.
Qed.

Lemma select_run (rlist : list Z) (k : wakeup) (w : world) :
  w_faults w (length (w_calls w)) = None ->
  forallb (is_open w) rlist = true ->
  select_select rlist k w =
  (Ok (filter (readable k w) rlist),
   log (EvSelect rlist (Ok (filter (readable k w) rlist)))
       (set_tty_in (w_tty_in w ++ wk_arrive k) w)).
Proof.
  intros Hf Ho. unfold select_select.
  rewrite syscall_ok by exact Hf.
  change (is_open (set_tty_in (w_tty_in w ++ wk_arrive k) w))
    with (is_open w).
  rewrite Ho. reflexivity.
Qed.

Lemma read_run (fd n : Z) (w : world) :
  w_faults w (length (w_calls w)) = None ->
  fd_lookup fd (w_fds w) = Some FTty ->
  os_read fd n w =
  (Ok (firstn (Z.to_nat n) (w_tty_in w)),
   log (EvRead fd n (Ok (firstn (Z.to_nat n) (w_tty_in w))))
       (set_tty_in (skipn (Z.to_nat n) (w_tty_in w)) w)).
Proof.
  intros Hf Hl. unfold os_read. rewrite syscall_ok by exact Hf.
  now rewrite Hl.
Qed.

Lemma write_run (fd : Z) (buf : bytes) (w : world) :
  w_faults w (length (w_calls w)) = None ->
  fd_lookup fd (w_fds w) = Some FStdout ->
  os_write fd buf w =
  (Ok (len buf),
   log (EvWrite fd buf (Ok (len buf))) (set_out (w_out w ++ buf) w)).
Proof.
  intros Hf Hl. unfold os_write. rewrite syscall_ok by exact Hf.
  now rewrite Hl.
Qed.

Lemma tcsetattr_run (fd : Z) (when : tc_when) (a : termios_attr)
    (w : world) :
  w_faults w (length (w_calls w)) = None ->
  fd_lookup fd (w_fds w) = Some FTty ->
  termios_tcsetattr fd when a w =
  (Ok tt, log (EvTcSetAttr fd when a (Ok tt))
              (set_attr a (apply_when when w))).
Proof.
  intros Hf Hl. unfold termios_tcsetattr. rewrite syscall_ok by exact Hf.
  now rewrite Hl.
Qed.

(** ** What the loop sends to standard output *)

Lemma relayed_trans (term : bytes) (ok : bool) (w1 w2 w3 : world) :
  relayed [] true w1 w2 -> relayed term ok w2 w3 -> relayed term ok w1 w3.
Proof.
  intros [e1 [C1 [B1 [O1 K1]]]] [e2 [C2 [B2 [O2 K2]]]].
  exists (e1 ++ e2). repeat split.
  - rewrite C2, C1. symmetry. apply app_assoc.
  - rewrite read_chunks_app. apply Forall_app. now split.
  - intros H. rewrite writes_ok_app in H.
    apply andb_true_iff in H as [H1 H2].
    rewrite (O2 H2), (O1 H1), read_chunks_app, concat_app, app_nil_r.
    rewrite <- !app_assoc. reflexivity.
  - intros Hk. rewrite writes_ok_app, K1, K2 by auto. reflexivity.
Qed.

Lemma len_zero {A} (l : list A) : (len l =? 0) = true -> l = [].
Proof.
  destruct l; [reflexivity|]. unfold len. simpl length.
  intros H. apply Z.eqb_eq in H. lia.
Qed.

(** Closes a leaf of the case analysis of one iteration from the effects
    of the calls made on that path. *)
Ltac relay_facts :=
  unfold call_effect in *;
  repeat match goal with
         | H : _ /\ _ |- _ => destruct H
         end.

Ltac relay_absurd :=
  match goal with
  | H : not_blocked Blocked |- _ => exfalso; apply H; reflexivity
  end.

Ltac relay_calls :=
  repeat match goal with
         | H : w_calls _ = _ |- _ => rewrite H; clear H
         end;
  rewrite <- ?app_assoc; reflexivity.

Ltac relay_bound :=
  repeat constructor;
  match goal with
  | H : forall b, Ok ?buf = Ok b -> _ |- _ =>
      specialize (H buf eq_refl); unfold len; lia
  | _ => idtac
  end.

Ltac relay_out :=
  let Hw := fresh "Hw" in
  intros Hw; try discriminate Hw;
  repeat match goal with
         | H : w_out _ = _ |- _ => rewrite H; clear H
         end;
  rewrite ?app_nil_r, <- ?app_assoc; reflexivity.

Ltac relay_leaf :=
  relay_facts;
  first
    [ relay_absurd
    | let E := fresh "E" in
      intros E; inversion E; subst; clear E;
      eexists; split;
      [ relay_calls
      | cbn [read_chunks flat_map app writes_ok forallb write_ok andb
             ctl_terminator is_ok concat];
        split; [| split];
        [ relay_bound
        | relay_out
        | let Hk := fresh "Hk" in
          intros Hk; try discriminate Hk; reflexivity ] ] ].

Lemma iteration_relays (fd : Z) (k : wakeup) (w : world) o w' :
  iteration fd k w = (o, w') ->
  relayed (ctl_terminator o) (is_ok o) w w'.
Proof.
  unfold iteration, bind, try_except, ret, relayed.
  destruct (select_select [STDIN; fd] k w) as [[r|e|] w1] eqn:Es;
    apply select_inv in Es; [| relay_leaf | relay_leaf].
  destruct (py_in fd r).
  - destruct (os_read fd 64 w1) as [[buf|e|] w2] eqn:Er;
      apply os_read_inv in Er; [| | relay_leaf].
    + destruct (len buf =? 0) eqn:El.
      * apply len_zero in El. subst buf. relay_leaf.
      * destruct (os_write STDOUT buf w2) as [[n|e|] w3] eqn:Ew;
          apply os_write_inv in Ew; [| relay_leaf | relay_leaf].
        destruct (py_in STDIN r); [| relay_leaf].
        destruct (os_write STDOUT [x00] w3) as [[n0|e|] w4] eqn:Ez;
          apply os_write_inv in Ez; relay_leaf.
    + relay_leaf.
  - destruct (py_in STDIN r); [| relay_leaf].
    destruct (os_write STDOUT [x00] w1) as [[n0|e|] w4] eqn:Ez;
      apply os_write_inv in Ez; relay_leaf.
Qed.

Lemma loop_relays (fd : Z) (script : list wakeup) :
  forall w o w',
    loop fd script w = (o, w') ->
    relayed (terminator o) (is_ok o) w w'.
Proof.
  induction script as [|k script IH]; intros w o w'; simpl.
  - intros E. inversion E; subst. exists []. simpl.
    rewrite !app_nil_r.
    split; [reflexivity | split; [constructor | split]];
      [reflexivity | discriminate].
  - unfold bind.
    destruct (iteration fd k w) as [[[|s]|e|] w1] eqn:Ei;
      apply iteration_relays in Ei; simpl in Ei.
    + intros El. apply IH in El. eapply relayed_trans; eassumption.
    + unfold ret. intros E. inversion E; subst.
      destruct s; exact Ei.
    + intros E. inversion E; subst. exact Ei.
    + intros E. inversion E; subst. exact Ei.
Qed.

Lemma loop_not_blocked_after_break (fd : Z) (script : list wakeup) :
  forall w s w', loop fd script w = (Ok s, w') -> script <> [].
Proof. intros w s w' H ->. discriminate H. Qed.

(** ** Evaluating one wakeup *)

Lemma py_in_ready (fd : Z) (k : wakeup) (w : world) :
  fd_lookup fd (w_fds w) = Some FTty -> wk_tty k = true ->
  py_in fd (ready fd k w) = true.
Proof.
  intros Hl Hk. apply py_in_spec. apply filter_In. split.
  - right. now left.
  - unfold readable. now rewrite Hl.
Qed.

Lemma select_ready (fd : Z) (k : wakeup) (w : world) :
  fd_lookup fd (w_fds w) = Some FTty -> is_open w STDIN = true ->
  calls_succeed w 1 ->
  select_select [STDIN; fd] k w =
  (Ok (ready fd k w),
   log (EvSelect [STDIN; fd] (Ok (ready fd k w)))
       (set_tty_in (w_tty_in w ++ wk_arrive k) w)).
Proof.
  intros Hl Ho Hs. apply select_run.
  - eapply calls_succeed_head; eassumption.
  - cbn [forallb]. rewrite Ho. unfold is_open. now rewrite Hl.
Qed.

Lemma fault_at (w w' : world) (n : nat) :
  w_faults w' = w_faults w ->
  length (w_calls w') = (length (w_calls w) + n)%nat ->
  w_faults w' (length (w_calls w')) = w_faults w (length (w_calls w) + n).
Proof. intros -> ->. reflexivity. Qed.

Lemma len_nonzero {A} (l : list A) : l <> [] -> (len l =? 0) = false.
Proof.
  intros H. destruct (len l =? 0) eqn:E; [| reflexivity].
  apply len_zero in E. contradiction.
Qed.

Lemma ready_both (fd : Z) (k : wakeup) (w : world) :
  fd_lookup fd (w_fds w) = Some FTty ->
  fd_lookup STDIN (w_fds w) = Some FStdin ->
  wk_tty k = true -> wk_stdin k = true ->
  ready fd k w = [STDIN; fd].
Proof.
  intros Hl Hi Ht Hs. unfold ready, readable. cbn [filter].
  now rewrite Hl, Hi, Ht, Hs.
Qed.

Lemma read_fault_after_select fd k w e :
  w_faults w (length (w_calls w) + 1) = Some e ->
  os_read fd 64 (woken fd k w) =
  (Raise e, log (EvRead fd 64 (Raise e)) (woken fd k w)).
Proof.
  intros Hf. unfold os_read. apply syscall_fault.
  rewrite <- Hf. apply fault_at; [reflexivity|].
  cbn [woken log set_tty_in w_calls]. now rewrite length_app.
Qed.

Lemma read_after_select fd k w :
  fd_lookup fd (w_fds w) = Some FTty -> calls_succeed w 2 ->
  os_read fd 64 (woken fd k w) =
  (Ok (firstn 64 (w_tty_in w ++ wk_arrive k)),
   log (EvRead fd 64 (Ok (firstn 64 (w_tty_in w ++ wk_arrive k))))
       (set_tty_in (skipn 64 (w_tty_in w ++ wk_arrive k)) (woken fd k w))).
Proof.
  intros Hl Hs. rewrite read_run; [reflexivity | | exact Hl].
  rewrite <- (Hs 1%nat) by lia. apply fault_at; [reflexivity|].
  cbn [woken log set_tty_in w_calls]. now rewrite length_app.
Qed.

Lemma loop_read_error fd k script w e :
  fd_lookup fd (w_fds w) = Some FTty -> is_open w STDIN = true ->
  wk_tty k = true -> calls_succeed w 1 ->
  w_faults w (length (w_calls w) + 1) = Some e ->
  ends_loop AtReadError
    [EvSelect [STDIN; fd] (Ok (ready fd k w)); EvRead fd 64 (Raise e)] []
    fd k script w.
Proof.
  intros Hl Ho Hk Hs Hf.
  assert (E : loop fd (k :: script) w =
              (Ok AtReadError,
               log (EvRead fd 64 (Raise e)) (woken fd k w))).
  { cbn [loop]. unfold iteration, bind, try_except, ret.
    rewrite select_ready by assumption. cbv beta iota.
    rewrite py_in_ready by assumption. cbv beta iota.
    fold (woken fd k w).
    rewrite (@read_fault_after_select fd k w e Hf). reflexivity. }
  split; rewrite E; cbn [fst snd woken log set_tty_in w_calls w_out w_attr
                         w_fds w_faults];
    rewrite <- ?app_assoc, ?app_nil_r; reflexivity.
Qed.

Lemma loop_read_eof fd k script w :
  fd_lookup fd (w_fds w) = Some FTty -> is_open w STDIN = true ->
  wk_tty k = true -> calls_succeed w 2 ->
  firstn 64 (w_tty_in w ++ wk_arrive k) = [] ->
  ends_loop AtEof
    [EvSelect [STDIN; fd] (Ok (ready fd k w)); EvRead fd 64 (Ok [])] []
    fd k script w.
Proof.
  intros Hl Ho Hk Hs Hq.
  assert (E : loop fd (k :: script) w =
              (Ok AtEof,
               log (EvRead fd 64 (Ok []))
                 (set_tty_in (skipn 64 (w_tty_in w ++ wk_arrive k))
                    (woken fd k w)))).
  { cbn [loop]. unfold iteration, bind, try_except, ret.
    rewrite select_ready
      by (try assumption; intros i Hi; apply Hs; lia).
    cbv beta iota.
    rewrite py_in_ready by assumption. cbv beta iota.
    fold (woken fd k w).
    rewrite read_after_select by assumption. rewrite Hq. reflexivity. }
  split; rewrite E; cbn [fst snd woken log set_tty_in w_calls w_out w_attr
                         w_fds w_faults];
    rewrite <- ?app_assoc, ?app_nil_r; reflexivity.
Qed.

Lemma loop_both_data fd k script w :
  fd_lookup fd (w_fds w) = Some FTty ->
  fd_lookup STDIN (w_fds w) = Some FStdin ->
  fd_lookup STDOUT (w_fds w) = Some FStdout ->
  wk_tty k = true -> wk_stdin k = true -> calls_succeed w 4 ->
  firstn 64 (w_tty_in w ++ wk_arrive k) <> [] ->
  ends_loop AtStdin
    [ EvSelect [STDIN; fd] (Ok [STDIN; fd]);
      EvRead fd 64 (Ok (firstn 64 (w_tty_in w ++ wk_arrive k)));
      EvWrite STDOUT (firstn 64 (w_tty_in w ++ wk_arrive k))
        (Ok (len (firstn 64 (w_tty_in w ++ wk_arrive k))));
      EvWrite STDOUT [x00] (Ok 1) ]
    (firstn 64 (w_tty_in w ++ wk_arrive k) ++ [x00])
    fd k script w.
Proof.
  intros Hl Hi Ho Ht Hs Hc Hq.
  set (buf := firstn 64 (w_tty_in w ++ wk_arrive k)) in *.
  set (w2 := log (EvRead fd 64 (Ok buf))
               (set_tty_in (skipn 64 (w_tty_in w ++ wk_arrive k))
                  (woken fd k w))).
  set (w3 := log (EvWrite STDOUT buf (Ok (len buf)))
               (set_out (w_out w2 ++ buf) w2)).
  assert (Hopen : is_open w STDIN = true)
    by (unfold is_open; now rewrite Hi).
  assert (E : loop fd (k :: script) w =
              (Ok AtStdin,
               log (EvWrite STDOUT [x00] (Ok 1))
                 (set_out (w_out w3 ++ [x00]) w3))).
  { cbn [loop]. unfold iteration, bind, try_except, ret.
    rewrite select_ready
      by (try assumption; intros i Hj; apply Hc; lia).
    cbv beta iota.
    rewrite py_in_ready by assumption. cbv beta iota.
    fold (woken fd k w).
    rewrite read_after_select
      by (try assumption; intros i Hj; apply Hc; lia).
    fold buf. fold w2.
    rewrite (len_nonzero Hq).
    rewrite (@write_run STDOUT buf w2).
    - fold w3. rewrite ready_both by assumption.
      change (py_in STDIN [STDIN; fd]) with true. cbv beta iota.
      rewrite (@write_run STDOUT [x00] w3); [reflexivity | | exact Ho].
      rewrite <- (Hc 3%nat) by lia. apply fault_at; [reflexivity|].
      subst w3 w2. cbn [woken log set_out set_tty_in w_calls].
      rewrite !length_app. cbn [length]. lia.
    - rewrite <- (Hc 2%nat) by lia. apply fault_at; [reflexivity|].
      subst w2. cbn [woken log set_out set_tty_in w_calls].
      rewrite !length_app. cbn [length]. lia.
    - exact Ho. }
  split; rewrite E; subst w3 w2;
    cbn [fst snd woken log set_out set_tty_in w_calls w_out w_attr
         w_fds w_faults];
    rewrite ?ready_both by assumption;
    rewrite <- ?app_assoc, ?app_nil_r; reflexivity.
Qed.

(** ** Standard input is only polled *)

Lemma blind_ret (t : list (Z * file)) {A} (a : A) : stdin_blind t (ret a).
Proof. intros s w Ht. split; [reflexivity | exact Ht]. Qed.

Lemma blind_bind (t : list (Z * file)) {A B} (c : M A) (k : A -> M B) :
  stdin_blind t c -> (forall a, stdin_blind t (k a)) ->
  stdin_blind t (bind c k).
Proof.
  intros Hc Hk s w Ht. unfold bind.
  destruct (Hc s w Ht) as [E Ht1]. rewrite E.
  destruct (c w) as [[a|e|] w1]; cbn [fst snd] in *.
  - apply Hk. exact Ht1.
  - split; [reflexivity | exact Ht1].
  - split; [reflexivity | exact Ht1].
Qed.

Lemma blind_try_except (t : list (Z * file)) {A} (body handler : M A) :
  stdin_blind t body -> stdin_blind t handler ->
  stdin_blind t (try_except body handler).
Proof.
  intros Hb Hh s w Ht. unfold try_except.
  destruct (Hb s w Ht) as [E Ht1]. rewrite E.
  destruct (body w) as [[a|e|] w1]; cbn [fst snd] in *.
  - split; [reflexivity | exact Ht1].
  - apply Hh. exact Ht1.
  - split; [reflexivity | exact Ht1].
Qed.

Lemma blind_try_finally (t : list (Z * file)) {A}
    (body : M A) (fin : M unit) :
  stdin_blind t body -> stdin_blind t fin ->
  stdin_blind t (try_finally body fin).
Proof.
  intros Hb Hf s w Ht. unfold try_finally.
  destruct (Hb s w Ht) as [E Ht1]. rewrite E.
  destruct (body w) as [[a|e|] w1]; cbn [fst snd] in *;
    try (split; [reflexivity | exact Ht1]);
    destruct (Hf s w1 Ht1) as [E2 Ht2]; rewrite E2;
    destruct (fin w1) as [[u|e'|] w2]; cbn [fst snd] in *;
    (split; [reflexivity | exact Ht2]).
Qed.

(** Unfolds a call, splits on the fault table and on the descriptor
    table, and compares the two runs. *)
Ltac blind_call :=
  let s := fresh "s" in
  let w := fresh "w" in
  let Ht := fresh "Ht" in
  intros s w Ht; unfold syscall;
  cbn [set_stdin set_tty_in w_faults w_calls w_fds w_tty_in];
  destruct (w_faults w (length (w_calls w)));
  [ split; [reflexivity | exact Ht] | ];
  try rewrite Ht;
  repeat match goal with
         | |- context [match ?x with _ => _ end] =>
             lazymatch x with
             | context [match _ with _ => _ end] => fail
             | _ => destruct x eqn:?
             end
         end;
  try discriminate;
  (split; [reflexivity | exact Ht]).

Lemma blind_get_terminal_size t fd :
  stdin_blind t (os_get_terminal_size fd).
Proof. unfold os_get_terminal_size. blind_call. Qed.

Lemma blind_struct_pack t a b : stdin_blind t (struct_pack_LL a b).
Proof.
  unfold struct_pack_LL. intros s w Ht.
  destruct (is_uint32 a && is_uint32 b); split;
    try reflexivity; exact Ht.
Qed.

Lemma blind_write t fd buf : stdin_blind t (os_write fd buf).
Proof. unfold os_write. blind_call. Qed.

Lemma blind_tcgetattr t fd : stdin_blind t (termios_tcgetattr fd).
Proof. unfold termios_tcgetattr. blind_call. Qed.

Lemma blind_tcsetattr t fd when a :
  stdin_blind t (termios_tcsetattr fd when a).
Proof. unfold termios_tcsetattr. destruct when; blind_call. Qed.

Lemma blind_select t rlist k : stdin_blind t (select_select rlist k).
Proof.
  unfold select_select. intros s w Ht. unfold syscall.
  cbn [set_stdin set_tty_in w_faults w_calls w_fds w_tty_in].
  destruct (w_faults w (length (w_calls w)));
    [split; [reflexivity | exact Ht]|].
  change (is_open (set_tty_in (w_tty_in w ++ wk_arrive k)
                     (set_stdin s w)))
    with (is_open w).
  change (is_open (set_tty_in (w_tty_in w ++ wk_arrive k) w))
    with (is_open w).
  destruct (forallb (is_open w) rlist);
    (split; [reflexivity | exact Ht]).
Qed.

(** The one call that could look at the content: a read, here from a
    descriptor of the terminal. *)
Lemma blind_read t fd n :
  fd_lookup fd t = Some FTty -> stdin_blind t (os_read fd n).
Proof.
  intros Hl. unfold os_read. intros s w Ht. unfold syscall.
  cbn [set_stdin w_faults w_calls w_fds].
  destruct (w_faults w (length (w_calls w)));
    [split; [reflexivity | exact Ht]|].
  rewrite Ht, Hl. split; [reflexivity | exact Ht].
Qed.

Lemma blind_iteration t fd k :
  fd_lookup fd t = Some FTty -> stdin_blind t (iteration fd k).
Proof.
  intros Hl. unfold iteration.
  apply blind_bind; [apply blind_select | intros r].
  apply blind_bind.
  - destruct (py_in fd r); [| apply blind_ret].
    apply blind_bind.
    + apply blind_try_except; [| apply blind_ret].
      apply blind_bind; [now apply blind_read | intros buf].
      apply blind_ret.
    + intros [buf|]; [| apply blind_ret].
      destruct (len buf =? 0); [apply blind_ret|].
      apply blind_bind; [apply blind_write | intros _; apply blind_ret].
  - intros [|site]; [| apply blind_ret].
    destruct (py_in STDIN r); [| apply blind_ret].
    apply blind_bind; [apply blind_write | intros _; apply blind_ret].
Qed.

Lemma blind_loop t fd script :
  fd_lookup fd t = Some FTty -> stdin_blind t (loop fd script).
Proof.
  intros Hl. induction script as [|k script IH]; cbn [loop].
  - intros s w Ht. split; [reflexivity | exact Ht].
  - apply blind_bind; [now apply blind_iteration | intros [|site]].
    + exact IH.
    + apply blind_ret.
Qed.

(** ** Facts about [main] *)

Section MainFacts.

Variables ICRNL ECHO ICANON ISIG : Z.

Notation raw_attr := (raw_attr ICRNL ECHO ICANON ISIG).
Notation main := (main ICRNL ECHO ICANON ISIG).
Notation session := (session ICRNL ECHO ICANON ISIG).
Notation after_header := (after_header ICRNL ECHO ICANON ISIG).
Notation after_open := (after_open ICRNL ECHO ICANON ISIG).
Notation in_raw_mode := (in_raw_mode ICRNL ECHO ICANON ISIG).

Lemma main_unfold (script : list wakeup) :
  main script =
  (fd <- os_open "/dev/tty" O_RDONLY ;; after_open fd script).
Proof. reflexivity. Qed.

Lemma frame_session (fd : Z) (old : termios_attr) (script : list wakeup) :
  respects frame (session fd old script).
Proof.
  unfold session.
  apply respects_try_finally;
    [exact frame_trans | | apply frame_tcsetattr].
  apply respects_bind; [exact frame_trans | apply frame_tcsetattr | intros _].
  apply respects_bind; [exact frame_trans | apply frame_loop | intros _].
  apply respects_ret; exact frame_refl.
Qed.

Lemma frame_after_header (fd : Z) (script : list wakeup) :
  respects frame (after_header fd script).
Proof.
  unfold after_header.
  apply respects_bind; [exact frame_trans | apply frame_tcgetattr | intros old].
  apply frame_session.
Qed.

Lemma frame_after_open (fd : Z) (script : list wakeup) :
  respects frame (after_open fd script).
Proof.
  unfold after_open.
  apply respects_bind; [exact frame_trans | | intros sz].
  { frame_call. }
  apply respects_bind; [exact frame_trans | | intros h].
  { unfold struct_pack_LL.
    destruct (is_uint32 (columns sz) && is_uint32 (lines sz));
      intros w; apply frame_refl. }
  apply respects_bind; [exact frame_trans | apply frame_write | intros _].
  apply frame_after_header.
Qed.

Lemma lookup_tty_fd (w : world) (t : list (Z * file)) :
  fd_lookup (tty_fd w) ((tty_fd w, FTty) :: t) = Some FTty.
Proof. simpl. now rewrite Z.eqb_refl. Qed.

Lemma lookup_stdout_opened (w : world) :
  fd_lookup STDOUT (w_fds w) = Some FStdout ->
  fd_lookup STDOUT ((tty_fd w, FTty) :: w_fds w) = Some FStdout.
Proof.
  intros H. simpl. pose proof (@tty_fd_not_open w _ _ H) as Hne.
  destruct (Z.eqb_spec (tty_fd w) STDOUT); [contradiction | assumption].
Qed.

Lemma run_open (script : list wakeup) (w : world) :
  calls_succeed w 1 ->
  main script w = after_open (tty_fd w) script (opened w).
Proof.
  intros Hc. rewrite main_unfold. unfold bind at 1, os_open, syscall.
  pose proof (Hc 0%nat ltac:(lia)) as H0. rewrite Nat.add_0_r in H0.
  rewrite H0. reflexivity.
Qed.

Lemma run_header (script : list wakeup) (w : world) :
  startup_ok w -> calls_succeed w 3 ->
  main script w = after_header (tty_fd w) script (greeted w).
Proof.
  intros [Hout Hc Hr] Hs.
  rewrite run_open by (intros k Hk; apply Hs; lia).
  pose proof (Hs 1%nat ltac:(lia)) as H1.
  pose proof (Hs 2%nat ltac:(lia)) as H2.
  unfold after_open, bind at 1, os_get_terminal_size, syscall.
  cbn [opened log set_fds w_faults w_calls w_fds w_cols w_rows].
  rewrite length_app. cbn [length]. rewrite H1, lookup_tty_fd.
  unfold bind at 1, struct_pack_LL.
  cbn [columns lines]. rewrite Hc, Hr. cbn [andb ret].
  unfold bind at 1, os_write, syscall.
  cbn [opened log set_fds w_faults w_calls w_fds w_out].
  rewrite !length_app, <- Nat.add_assoc. cbn [length Nat.add].
  rewrite H2, lookup_stdout_opened by assumption.
  reflexivity.
Qed.

Lemma run_tcgetattr (script : list wakeup) (w : world) :
  startup_ok w -> calls_succeed w 4 ->
  main script w = session (tty_fd w) (w_attr w) script (at_try w).
Proof.
  intros Hok Hs.
  rewrite run_header by (try assumption; intros k Hk; apply Hs; lia).
  pose proof (Hs 3%nat ltac:(lia)) as H3.
  unfold after_header, bind at 1, termios_tcgetattr, syscall.
  cbn [greeted sized opened log set_out set_fds
       w_faults w_calls w_fds w_attr].
  rewrite !length_app, <- !Nat.add_assoc. cbn [length Nat.add].
  rewrite H3, lookup_tty_fd. reflexivity.
Qed.

Lemma run_raw (script : list wakeup) (w : world) :
  startup_ok w -> calls_succeed w 5 ->
  main script w =
  try_finally (loop (tty_fd w) script ;;; ret tt)
    (termios_tcsetattr (tty_fd w) TCSAFLUSH (w_attr w)) (in_raw_mode w).
Proof.
  intros Hok Hs.
  rewrite run_tcgetattr by (try assumption; intros k Hk; apply Hs; lia).
  pose proof (Hs 4%nat ltac:(lia)) as H4.
  unfold session, try_finally at 1, bind at 1.
  rewrite tcsetattr_run.
  - reflexivity.
  - cbn [at_try greeted sized opened log set_out set_fds w_faults w_calls].
    rewrite !length_app, <- !Nat.add_assoc. cbn [length Nat.add].
    exact H4.
  - apply lookup_tty_fd.
Qed.

Lemma calls_in_raw_mode (w : world) :
  w_calls (in_raw_mode w) =
  w_calls w ++
  [ EvOpen "/dev/tty" O_RDONLY (Ok (tty_fd w));
    EvGetTerminalSize (tty_fd w) (Ok (TerminalSize (w_cols w) (w_rows w)));
    EvWrite STDOUT (header w) (Ok 8);
    EvTcGetAttr (tty_fd w) (Ok (w_attr w));
    EvTcSetAttr (tty_fd w) TCSAFLUSH (raw_attr (w_attr w)) (Ok tt) ].
Proof. simpl. rewrite <- !app_assoc. reflexivity. Qed.

(** However the [try] statement ends, its last call is the restoring
    [tcsetattr]. *)
Lemma session_restores (fd : Z) (old : termios_attr)
    (script : list wakeup) (w : world) o w' :
  session fd old script w = (o, w') -> o <> Blocked ->
  exists pre res,
    w_calls w' = pre ++ [EvTcSetAttr fd TCSAFLUSH old res] /\
    (res = Ok tt -> w_attr w' = old).
Proof.
  unfold session, try_finally.
  destruct ((termios_tcsetattr fd TCSAFLUSH (raw_attr old) ;;;
             loop fd script ;;; ret tt) w) as [ob w1].
  destruct (termios_tcsetattr fd TCSAFLUSH old w1) as [res w2] eqn:Ef.
  apply tcsetattr_inv in Ef. destruct Ef as [[Hc _] [Hn [Ha _]]].
  intros E Ho.
  assert (Hw : w' = w2).
  { destruct ob, res; inversion E; subst; try reflexivity;
      exfalso; apply Ho; reflexivity. }
  subst w'. exists (w_calls w1), res. split; assumption.
Qed.

(** The part of the [try] statement after raw mode is entered, in terms
    of the run of the loop. *)
Lemma loop_then_restore (fd : Z) (old : termios_attr)
    (script : list wakeup) (w : world) o w' :
  try_finally (loop fd script ;;; ret tt)
    (termios_tcsetattr fd TCSAFLUSH old) w = (o, w') ->
  exists tail,
    w_calls w' = w_calls (snd (loop fd script w)) ++ tail /\
    w_out w' = w_out (snd (loop fd script w)) /\
    read_chunks tail = [] /\ writes_ok tail = true.
Proof.
  unfold try_finally, bind, ret.
  destruct (loop fd script w) as [[s|e|] w1]; cbn [snd].
  - destruct (termios_tcsetattr fd TCSAFLUSH old w1) as [res w2] eqn:Ef.
    apply tcsetattr_inv in Ef. destruct Ef as [[Hc Ho] _].
    rewrite app_nil_r in Ho.
    intros E. assert (w' = w2) by (destruct res; now inversion E). subst.
    eexists. repeat split; [exact Hc | exact Ho | reflexivity | reflexivity].
  - destruct (termios_tcsetattr fd TCSAFLUSH old w1) as [res w2] eqn:Ef.
    apply tcsetattr_inv in Ef. destruct Ef as [[Hc Ho] _].
    rewrite app_nil_r in Ho.
    intros E. assert (w' = w2) by (destruct res; now inversion E). subst.
    eexists. repeat split; [exact Hc | exact Ho | reflexivity | reflexivity].
  - intros E. inversion E; subst. exists [].
    rewrite app_nil_r. repeat split.
Qed.

Lemma blind_session t fd old script :
  fd_lookup fd t = Some FTty -> stdin_blind t (session fd old script).
Proof.
  intros Hl. unfold session.
  apply blind_try_finally; [| apply blind_tcsetattr].
  apply blind_bind; [apply blind_tcsetattr | intros _].
  apply blind_bind; [now apply blind_loop | intros _; apply blind_ret].
Qed.

Lemma blind_after_open t fd script :
  fd_lookup fd t = Some FTty -> stdin_blind t (after_open fd script).
Proof.
  intros Hl. unfold after_open, after_header.
  apply blind_bind; [apply blind_get_terminal_size | intros size].
  apply blind_bind; [apply blind_struct_pack | intros hdr].
  apply blind_bind; [apply blind_write | intros _].
  apply blind_bind; [apply blind_tcgetattr | intros old].
  now apply blind_session.
Qed.

(** Changing the content of standard input changes nothing in a run of
    [main] but that content. *)
Lemma main_blind (script : list wakeup) (s : bytes) (w : world) :
  main script (set_stdin s w) =
  (fst (main script w), set_stdin s (snd (main script w))).
Proof.
  rewrite main_unfold. unfold bind, os_open, syscall.
  cbn [set_stdin w_faults w_calls w_fds].
  destruct (w_faults w (length (w_calls w))); [reflexivity|].
  cbn [String.eqb Ascii.eqb Bool.eqb].
  change (lowest_unused (map fst (w_fds w))) with (tty_fd w).
  apply (@blind_after_open ((tty_fd w, FTty) :: w_fds w) (tty_fd w) script
           (lookup_tty_fd w (w_fds w)) s
           (log (EvOpen "/dev/tty" O_RDONLY (Ok (tty_fd w)))
              (set_fds ((tty_fd w, FTty) :: w_fds w) w))
           eq_refl).
Qed.

End MainFacts.

(** After a [break] the restoring call follows at once. *)
Lemma restore_after_break (fd : Z) (old : termios_attr)
    (script : list wakeup) (w : world) (site : exit_site) :
  fst (loop fd script w) = Ok site ->
  let r := try_finally (loop fd script ;;; ret tt)
             (termios_tcsetattr fd TCSAFLUSH old) w in
  exists res,
    w_calls (snd r) =
    w_calls (snd (loop fd script w)) ++ [EvTcSetAttr fd TCSAFLUSH old res] /\
    w_out (snd r) = w_out (snd (loop fd script w)) /\
    (res = Ok tt -> fst r = Ok tt /\ w_attr (snd r) = old) /\
    (forall e, res = Raise e -> fst r = Raise e).
Proof.
  intros H r. subst r. unfold try_finally, bind, ret.
  destruct (loop fd script w) as [o w1]. cbn [fst snd] in *. subst o.
  destruct (termios_tcsetattr fd TCSAFLUSH old w1) as [res w2] eqn:Ef.
  apply tcsetattr_inv in Ef. destruct Ef as [[Hc Ho] [Hn [Ha _]]].
  rewrite app_nil_r in Ho.
  exists res. destruct res as [[]|e|]; cbn [fst snd].
  - repeat split; auto.
  - repeat split; auto; discriminate.
  - exfalso. apply Hn. reflexivity.
Qed.

(** ** The claims about the loop *)

(** C4.  When the loop is left by a [break], standard output has grown by
    the chunks read and then by one 0x00 byte exactly when the loop was
    left through the standard-input branch (line 38); after the [break] of
    the end-of-stream test or of the read error handler nothing follows the
    chunks. *)
Theorem terminator_iff_stdin_exit (fd : Z) (script : list wakeup)
    (w : world) (s : exit_site) (w' : world) :
  loop fd script w = (Ok s, w') ->
  let data := concat (read_chunks (new_calls w w')) in
  (w_out w' = w_out w ++ data ++ [x00] <-> s = AtStdin) /\
  (s = AtEof \/ s = AtReadError -> w_out w' = w_out w ++ data).
Proof.
  intros H. apply loop_relays in H.
  destruct H as [evs [Hc [_ [Ho Hk]]]].
  rewrite (@new_calls_app _ _ _ Hc). cbn zeta.
  specialize (Ho (Hk eq_refl)).
  destruct s; simpl in Ho; rewrite app_nil_r in Ho || idtac.
  - split; [| intros _; exact Ho]. split; [| discriminate].
    intros E. rewrite Ho in E. apply app_inv_head in E.
    rewrite <- (app_nil_r (concat (read_chunks evs))) in E at 1.
    apply app_inv_head in E. discriminate E.
  - split; [| intros _; exact Ho]. split; [| discriminate].
    intros E. rewrite Ho in E. apply app_inv_head in E.
    rewrite <- (app_nil_r (concat (read_chunks evs))) in E at 1.
    apply app_inv_head in E. discriminate E.
  - split; [| intros [E|E]; discriminate E].
    split; [reflexivity | intros _; exact Ho].
Qed.

(** C5, amended.  On a wakeup that reports both the terminal and standard
    input readable, the terminal branch runs first.  If its read returns at
    least one byte, the bytes are written and the standard-input branch
    then writes the 0x00 byte and ends the loop, with no wait in between.
    If the read returns nothing or raises, the loop ends in the terminal
    branch: the standard-input branch does not run and no 0x00 byte is
    written. *)
Theorem terminal_branch_runs_first (fd : Z) (k : wakeup)
    (script : list wakeup) (w : world) :
  fd_lookup fd (w_fds w) = Some FTty ->
  fd_lookup STDIN (w_fds w) = Some FStdin ->
  fd_lookup STDOUT (w_fds w) = Some FStdout ->
  wk_tty k = true -> wk_stdin k = true ->
  let buf := firstn 64 (w_tty_in w ++ wk_arrive k) in
  let sel := EvSelect [STDIN; fd] (Ok [STDIN; fd]) in
  (calls_succeed w 4 -> buf <> [] ->
   ends_loop AtStdin
     [ sel; EvRead fd 64 (Ok buf); EvWrite STDOUT buf (Ok (len buf));
       EvWrite STDOUT [x00] (Ok 1) ]
     (buf ++ [x00]) fd k script w) /\
  (calls_succeed w 2 -> buf = [] ->
   ends_loop AtEof [sel; EvRead fd 64 (Ok [])] [] fd k script w) /\
  (calls_succeed w 1 ->
   forall e, w_faults w (length (w_calls w) + 1) = Some e ->
   ends_loop AtReadError [sel; EvRead fd 64 (Raise e)] [] fd k script w).
Proof.
  intros Hl Hi Ho Ht Hs buf sel. subst buf sel.
  assert (Hopen : is_open w STDIN = true)
    by (unfold is_open; now rewrite Hi).
  pose proof (@ready_both fd k w Hl Hi Ht Hs) as Hr.
  split; [| split].
  - intros Hc Hq. now apply loop_both_data.
  - intros Hc Hq.
    pose proof (@loop_read_eof fd k script w Hl Hopen Ht Hc Hq) as H.
    rewrite Hr in H. exact H.
  - intros Hc e Hf.
    pose proof (@loop_read_error fd k script w e Hl Hopen Ht Hc Hf) as H.
    rewrite Hr in H. exact H.
Qed.

(** C6.  When the terminal is reported readable and the read raises, the
    loop ends by a [break]: no exception leaves it, nothing is written, the
    restoring [tcsetattr] is the next call and, when it returns, [main]'s
    [try] statement ends normally with the saved attributes in force.  A
    read that returns nothing ends the loop in the same way: the same
    outcome, the same standard output and the same attributes. *)
Theorem read_error_ends_loop_silently (fd : Z) (k : wakeup)
    (script : list wakeup) (w : world) (e : exn) (old : termios_attr) :
  fd_lookup fd (w_fds w) = Some FTty -> is_open w STDIN = true ->
  wk_tty k = true -> calls_succeed w 1 ->
  w_faults w (length (w_calls w) + 1) = Some e ->
  let sel := EvSelect [STDIN; fd] (Ok (ready fd k w)) in
  let r := try_finally (loop fd (k :: script) ;;; ret tt)
             (termios_tcsetattr fd TCSAFLUSH old) w in
  ends_loop AtReadError [sel; EvRead fd 64 (Raise e)] [] fd k script w /\
  (exists res,
     w_calls (snd r) =
     w_calls w ++
     [sel; EvRead fd 64 (Raise e); EvTcSetAttr fd TCSAFLUSH old res] /\
     w_out (snd r) = w_out w /\
     (res = Ok tt -> fst r = Ok tt /\ w_attr (snd r) = old)) /\
  (forall v,
     fd_lookup fd (w_fds v) = Some FTty -> is_open v STDIN = true ->
     calls_succeed v 2 -> firstn 64 (w_tty_in v ++ wk_arrive k) = [] ->
     w_out v = w_out w -> w_attr v = w_attr w ->
     fst (loop fd (k :: script) v) = Ok AtEof /\
     is_ok (fst (loop fd (k :: script) v)) =
     is_ok (fst (loop fd (k :: script) w)) /\
     w_out (snd (loop fd (k :: script) v)) =
     w_out (snd (loop fd (k :: script) w)) /\
     w_attr (snd (loop fd (k :: script) v)) =
     w_attr (snd (loop fd (k :: script) w))).
Proof.
  intros Hl Ho Hk Hs Hf sel r.
  pose proof (@loop_read_error fd k script w e Hl Ho Hk Hs Hf) as He.
  split; [exact He | split].
  - destruct (@restore_after_break fd old (k :: script) w AtReadError
                (el_exit He)) as [res [Hc [Hout [Hok _]]]].
    exists res. subst r. rewrite Hc, Hout, (el_calls He), (el_out He).
    rewrite app_nil_r, <- app_assoc.
    repeat split; try reflexivity; now apply Hok.
  - intros v Hlv Hov Hsv Hq Eo Ea.
    pose proof (@loop_read_eof fd k script v Hlv Hov Hk Hsv Hq) as Hv.
    rewrite (el_exit Hv), (el_exit He), (el_out Hv), (el_out He),
      (el_attr Hv), (el_attr He), !app_nil_r.
    repeat split; assumption.
Qed.

(** ** The claims about [main] *)

Section MainClaims.

Variables ICRNL ECHO ICANON ISIG : Z.

Notation raw_attr := (raw_attr ICRNL ECHO ICANON ISIG).
Notation main := (main ICRNL ECHO ICANON ISIG).
Notation in_raw_mode := (in_raw_mode ICRNL ECHO ICANON ISIG).

(** C2.  When the terminal is opened, its geometry (c, r) lies in the
    unsigned 32-bit range and the header is written, the third call of the
    process is the write of eight bytes, the little-endian encoding of c
    followed by that of r, and everything else the run sends to standard
    output comes after these bytes. *)
Theorem header_is_first_output (script : list wakeup) (w : world) (c r : Z) :
  fd_lookup STDOUT (w_fds w) = Some FStdout ->
  w_cols w = c -> w_rows w = r ->
  0 <= c <= 4294967295 -> 0 <= r <= 4294967295 ->
  calls_succeed w 3 ->
  let w' := snd (main script w) in
  (exists rest, w_out w' = w_out w ++ (le32 c ++ le32 r) ++ rest) /\
  (exists evs,
     w_calls w' =
     w_calls w ++
     [ EvOpen "/dev/tty" O_RDONLY (Ok (tty_fd w));
       EvGetTerminalSize (tty_fd w) (Ok (TerminalSize c r));
       EvWrite STDOUT (le32 c ++ le32 r) (Ok 8) ] ++ evs) /\
  length (le32 c ++ le32 r) = 8%nat /\
  le_value (le32 c) = c /\ le_value (le32 r) = r.
Proof.
  intros Hout Hc Hr Rc Rr Hs w'.
  assert (Hok : startup_ok w).
  { split; [exact Hout | |]; apply is_uint32_spec; lia. }
  assert (Hf : frame (greeted w) w').
  { subst w'. rewrite run_header by assumption. apply frame_after_header. }
  destruct Hf as [_ _ _ _ [evs He] [rest Hr']].
  subst c r. repeat split.
  - exists rest. rewrite Hr'. simpl. unfold header.
    rewrite <- !app_assoc. reflexivity.
  - exists evs. rewrite He. simpl. rewrite <- !app_assoc. reflexivity.
  - apply le_value_le32. lia.
  - apply le_value_le32. lia.
Qed.

(** C10.  When the open, the geometry query and the header write succeed
    and [termios.tcgetattr] then raises, [main] ends with that exception
    after exactly four calls, and the eight header bytes are already on
    standard output; the terminal attributes were never touched. *)
Theorem header_precedes_attribute_failure
    (script : list wakeup) (w : world) (e : exn) :
  startup_ok w -> calls_succeed w 3 ->
  w_faults w (length (w_calls w) + 3) = Some e ->
  let w' := snd (main script w) in
  fst (main script w) = Raise e /\
  w_out w' = w_out w ++ le32 (w_cols w) ++ le32 (w_rows w) /\
  w_attr w' = w_attr w /\
  new_calls w w' =
  [ EvOpen "/dev/tty" O_RDONLY (Ok (tty_fd w));
    EvGetTerminalSize (tty_fd w) (Ok (TerminalSize (w_cols w) (w_rows w)));
    EvWrite STDOUT (le32 (w_cols w) ++ le32 (w_rows w)) (Ok 8);
    EvTcGetAttr (tty_fd w) (Raise e) ].
Proof.
  intros Hok Hs Hf w'.
  assert (E : main script w =
              (Raise e, log (EvTcGetAttr (tty_fd w) (Raise e)) (greeted w))).
  { rewrite run_header by assumption.
    unfold after_header, bind, termios_tcgetattr.
    rewrite syscall_fault with (e := e); [reflexivity|].
    cbn [greeted sized opened log set_out set_fds w_faults w_calls].
    rewrite !length_app, <- !Nat.add_assoc. cbn [length Nat.add].
    exact Hf. }
  subst w'. rewrite E. cbn [fst snd]. repeat split.
  apply new_calls_app. simpl. rewrite <- !app_assoc. reflexivity.
Qed.

(** C3.  Once the [try] statement is reached, every run of [main] that
    ends, with a value or with any exception, ends with the call
    [tcsetattr(fd, TCSAFLUSH, old)] on the attributes saved at startup; when
    this call returns, the attributes of the terminal are those it had
    before [main] started. *)
Theorem attributes_restored_on_exit
    (script : list wakeup) (w : world) o (w' : world) :
  startup_ok w -> calls_succeed w 4 ->
  main script w = (o, w') -> o <> Blocked ->
  exists pre res,
    w_calls w' = pre ++ [EvTcSetAttr (tty_fd w) TCSAFLUSH (w_attr w) res] /\
    (res = Ok tt -> w_attr w' = w_attr w).
Proof.
  intros Hok Hs E Ho. rewrite run_tcgetattr in E by assumption.
  eapply session_restores; eassumption.
Qed.

(** C7.  When the five startup calls succeed, the fifth is
    [tcsetattr(fd, TCSAFLUSH, new)], where [new] differs from the saved
    attributes only in the input flags, which lose the bits of [ICRNL],
    and in the local flags, which lose the bits of [ECHO], [ICANON] and
    [ISIG].  The process then waits in [select] with these attributes in
    force, the pending terminal output transmitted and the pending
    terminal input discarded. *)
Theorem raw_mode_applied_with_flush (w : world) :
  startup_ok w -> calls_succeed w 5 ->
  let old := w_attr w in
  let new := raw_attr old in
  main [] w = (Blocked, in_raw_mode w) /\
  (forall script, exists evs,
      w_calls (snd (main script w)) = w_calls (in_raw_mode w) ++ evs) /\
  (exists pre,
      w_calls (in_raw_mode w) =
      pre ++ [EvTcSetAttr (tty_fd w) TCSAFLUSH new (Ok tt)]) /\
  w_attr (in_raw_mode w) = new /\
  w_tty_in (in_raw_mode w) = [] /\
  w_tty_outq (in_raw_mode w) = [] /\
  w_tty_sent (in_raw_mode w) = w_tty_sent w ++ w_tty_outq w /\
  (forall i, 0 <= i ->
     Z.testbit (iflag new) i =
     Z.testbit (iflag old) i && negb (Z.testbit ICRNL i)) /\
  (forall i, 0 <= i ->
     Z.testbit (lflag new) i =
     Z.testbit (lflag old) i &&
     negb (Z.testbit ECHO i || Z.testbit ICANON i || Z.testbit ISIG i)) /\
  oflag new = oflag old /\ cflag new = cflag old /\
  ispeed new = ispeed old /\ ospeed new = ospeed old /\ cc new = cc old.
Proof.
  intros Hok Hs old new.
  split; [rewrite run_raw by assumption; reflexivity|].
  split.
  { intros script. rewrite run_raw by assumption.
    destruct (try_finally (loop (tty_fd w) script ;;; ret tt)
                (termios_tcsetattr (tty_fd w) TCSAFLUSH (w_attr w))
                (in_raw_mode w)) as [o w'] eqn:E.
    apply loop_then_restore in E. destruct E as [tail [Hc _]].
    pose proof (frame_loop (tty_fd w) script (in_raw_mode w)) as Hf.
    destruct Hf as [_ _ _ _ [evs He] _].
    exists (evs ++ tail). cbn [snd]. rewrite Hc, He.
    symmetry. apply app_assoc. }
  split; [eexists; reflexivity|].
  repeat split.
  - intros i Hi. subst new old. cbn [raw_attr list_copy set_item0 set_item3 iflag].
    rewrite Z.land_spec, Z.lnot_spec by assumption. reflexivity.
  - intros i Hi. subst new old. cbn [raw_attr list_copy set_item0 set_item3 lflag].
    rewrite Z.land_spec, Z.lnot_spec, !Z.lor_spec by assumption.
    reflexivity.
Qed.

(** C9, amended.  No call of [main] closes the descriptor of the terminal:
    once opened it is in the descriptor table on every exit path, and the
    table holds nothing else that it did not hold at startup. *)
Theorem descriptor_left_open (script : list wakeup) (w : world) :
  calls_succeed w 1 ->
  let w' := snd (main script w) in
  w_fds w' = (tty_fd w, FTty) :: w_fds w /\
  fd_lookup (tty_fd w) (w_fds w') = Some FTty /\
  is_open w' (tty_fd w) = true.
Proof.
  intros Hs w'.
  assert (Hf : w_fds w' = (tty_fd w, FTty) :: w_fds w).
  { subst w'. rewrite run_open by assumption.
    apply (fr_fds (frame_after_open ICRNL ECHO ICANON ISIG
                     (tty_fd w) script (opened w))). }
  split; [exact Hf|]. unfold is_open. rewrite Hf, lookup_tty_fd.
  split; reflexivity.
Qed.

(** C1, amended.  In a run that enters the loop and in which no write
    fails, each chunk read has at most 64 bytes, and standard output
    receives the header, then the chunks read in the order of the reads,
    then the single 0x00 byte if the loop is left through the
    standard-input branch, and nothing else. *)
Theorem output_is_chunks_then_terminator
    (script : list wakeup) (w : world) :
  startup_ok w -> calls_succeed w 5 ->
  let w' := snd (main script w) in
  let chunks := read_chunks (new_calls w w') in
  writes_ok (new_calls w w') = true ->
  Forall (fun c => len c <= 64) chunks /\
  w_out w' =
  w_out w ++ header w ++ concat chunks ++
  terminator (fst (loop (tty_fd w) script (in_raw_mode w))).
Proof.
  intros Hok Hs w' chunks. subst chunks w'.
  rewrite run_raw by assumption.
  destruct (try_finally (loop (tty_fd w) script ;;; ret tt)
              (termios_tcsetattr (tty_fd w) TCSAFLUSH (w_attr w))
              (in_raw_mode w)) as [o w'] eqn:E.
  apply loop_then_restore in E.
  destruct E as [tail [Hc [Ho [Ht Hw]]]].
  destruct (loop (tty_fd w) script (in_raw_mode w)) as [ol wl] eqn:El.
  apply loop_relays in El. destruct El as [evs [Lc [Lb [Lo _]]]].
  cbn [fst snd] in *.
  assert (Hn : new_calls w w' =
               firstn 5 (new_calls w (in_raw_mode w)) ++ evs ++ tail).
  { apply new_calls_app. rewrite Hc, Lc, (calls_in_raw_mode ICRNL ECHO ICANON ISIG w).
    rewrite (@new_calls_app w (in_raw_mode w) _ (calls_in_raw_mode ICRNL ECHO ICANON ISIG w)).
    cbn [firstn]. rewrite <- !app_assoc. reflexivity. }
  rewrite Hn.
  rewrite (@new_calls_app w (in_raw_mode w) _ (calls_in_raw_mode ICRNL ECHO ICANON ISIG w)).
  cbn [firstn]. rewrite !writes_ok_app, !read_chunks_app, Ht, Hw.
  cbn [writes_ok forallb write_ok read_chunks flat_map app andb].
  rewrite app_nil_r, andb_true_r. intros Hwr.
  split; [exact Lb|].
  rewrite Ho, (Lo Hwr). simpl. rewrite <- !app_assoc. reflexivity.
Qed.

(** C8.  [main] never reads standard input: two runs that differ only in
    the content available on standard input end in the same way, send the
    same bytes to standard output and make the same calls with the same
    results, and each leaves its content of standard input whole. *)
Theorem stdin_content_is_ignored
    (script : list wakeup) (w : world) (s1 s2 : bytes) :
  let r1 := main script (set_stdin s1 w) in
  let r2 := main script (set_stdin s2 w) in
  fst r1 = fst r2 /\
  w_out (snd r1) = w_out (snd r2) /\
  w_calls (snd r1) = w_calls (snd r2) /\
  w_attr (snd r1) = w_attr (snd r2) /\
  w_stdin (snd r1) = s1 /\ w_stdin (snd r2) = s2.
Proof.
  intros r1 r2. subst r1 r2.
  rewrite (main_blind ICRNL ECHO ICANON ISIG script s1 w).
  rewrite (main_blind ICRNL ECHO ICANON ISIG script s2 w).
  repeat split.
Qed.

End MainClaims.

(** ** The theorems at concrete environments *)

(** Settles a closed goal by evaluation. *)
Ltac evaluate := vm_compute; first [reflexivity | discriminate | lia].

(** Closes the goal with a statement that has the same normal form. *)
Ltac same_as H := vm_compute in H; vm_compute; exact H.

Lemma quiet_calls_succeed (w : world) (n : nat) :
  w_faults w = quiet -> calls_succeed w n.
Proof. intros H k _. rewrite H. reflexivity. Defined.

Lemma failing_calls_succeed (w : world) (n k0 : nat) (e : exn) :
  (length (w_calls w) + n <= k0)%nat ->
  calls_succeed (with_faults (failing k0 e) w) n.
Proof.
  intros H k Hk. cbn [with_faults w_faults w_calls]. unfold failing.
  destruct (Nat.eqb_spec (length (w_calls w) + k) k0); [lia | reflexivity].
Defined.

(** Scenario of the specification: geometry 80 x 24, the terminal sends
    [hello] and closes. *)
Example scenario_hello_then_close :
  w_out (snd (linux_main [Wakeup hello true false; Wakeup [] true false] w0))
  = le32 80 ++ le32 24 ++ hello.
Proof. evaluate. Qed.

(** Scenario of the specification: geometry 100 x 40, the terminal sends
    nothing and standard input is closed at once. *)
Example scenario_stop_at_once :
  w_out (snd (linux_main stop_at_once
                (World cooked 100 40 [] [] [] [] []
                   [(0, FStdin); (1, FStdout); (2, FStdout)] [] quiet)))
  = le32 100 ++ le32 40 ++ [x00].
Proof. evaluate. Qed.

Lemma terminator_iff_stdin_exit_witness :
  let w := linux_in_raw_mode w0 in
  let w' := snd (loop 3 hello_then_stop w) in
  loop 3 hello_then_stop w = (Ok AtStdin, w') /\
  (w_out w' = w_out w ++ hello ++ [x00] <-> AtStdin = AtStdin) /\
  (AtStdin = AtEof \/ AtStdin = AtReadError -> w_out w' = w_out w ++ hello).
Proof.
  assert (E : loop 3 hello_then_stop (linux_in_raw_mode w0) =
              (Ok AtStdin, snd (loop 3 hello_then_stop (linux_in_raw_mode w0))))
    by evaluate.
  split; [exact E|].
  pose proof (terminator_iff_stdin_exit _ _ _ E) as H.
  same_as H.
Defined.

(** C1 fails as stated: with standard input readable at once no chunk is
    read and no call fails, and yet a byte follows the header. *)
Lemma output_is_chunks_only_fails :
  startup_ok w0 /\ calls_succeed w0 5 /\
  writes_ok (new_calls w0 (snd (linux_main stop_at_once w0))) = true /\
  read_chunks (new_calls w0 (snd (linux_main stop_at_once w0))) = [] /\
  w_out (snd (linux_main stop_at_once w0)) = header w0 ++ [x00] /\
  ~ output_is_chunks_only 256 8 2 1 stop_at_once w0.
Proof.
  split; [split; evaluate|].
  split; [apply quiet_calls_succeed; evaluate|].
  split; [evaluate|]. split; [evaluate|]. split; [evaluate|].
  unfold output_is_chunks_only. evaluate.
Qed.

Lemma output_is_chunks_then_terminator_witness :
  startup_ok w0 /\ calls_succeed w0 5 /\
  writes_ok (new_calls w0 (snd (linux_main hello_then_stop w0))) = true /\
  Forall (fun c => len c <= 64) [hello] /\
  w_out (snd (linux_main hello_then_stop w0)) =
  w_out w0 ++ header w0 ++ concat [hello] ++ [x00].
Proof.
  assert (Hok : startup_ok w0) by (split; evaluate).
  assert (Hs : calls_succeed w0 5) by (apply quiet_calls_succeed; evaluate).
  assert (Hw : writes_ok
                 (new_calls w0 (snd (main 256 8 2 1 hello_then_stop w0))) =
               true) by evaluate.
  split; [exact Hok|]. split; [exact Hs|]. split; [exact Hw|].
  pose proof (@output_is_chunks_then_terminator 256 8 2 1 hello_then_stop w0
                Hok Hs Hw) as H.
  destruct H as [Hb Ho]. split; [same_as Hb | same_as Ho].
Defined.

Lemma header_is_first_output_witness :
  fd_lookup STDOUT (w_fds w_wide) = Some FStdout /\
  0 <= 4294967295 <= 4294967295 /\ 0 <= 0 <= 4294967295 /\
  calls_succeed w_wide 3 /\
  (exists rest,
     w_out (snd (linux_main stop_at_once w_wide)) =
     w_out w_wide ++ (le32 4294967295 ++ le32 0) ++ rest) /\
  le_value (le32 4294967295) = 4294967295 /\ le_value (le32 0) = 0.
Proof.
  assert (Ho : fd_lookup STDOUT (w_fds w_wide) = Some FStdout) by evaluate.
  assert (Hc : w_cols w_wide = 4294967295) by evaluate.
  assert (Hr : w_rows w_wide = 0) by evaluate.
  assert (Rc : 0 <= 4294967295 <= 4294967295) by lia.
  assert (Rr : 0 <= 0 <= 4294967295) by lia.
  assert (Hs : calls_succeed w_wide 3)
    by (apply quiet_calls_succeed; evaluate).
  split; [exact Ho|]. split; [exact Rc|]. split; [exact Rr|].
  split; [exact Hs|].
  pose proof (@header_is_first_output 256 8 2 1 stop_at_once w_wide
                4294967295 0 Ho Hc Hr Rc Rr Hs) as H.
  destruct H as [Hrest [_ [_ [Vc Vr]]]].
  split; [exact Hrest | split; [exact Vc | exact Vr]].
Defined.

Lemma attributes_restored_on_exit_witness :
  startup_ok w_pipe_breaks /\ calls_succeed w_pipe_breaks 4 /\
  fst (linux_main hello_then_stop w_pipe_breaks) = Raise (OSError 32) /\
  exists pre res,
    w_calls (snd (linux_main hello_then_stop w_pipe_breaks)) =
    pre ++ [EvTcSetAttr (tty_fd w_pipe_breaks) TCSAFLUSH
              (w_attr w_pipe_breaks) res] /\
    (res = Ok tt ->
     w_attr (snd (linux_main hello_then_stop w_pipe_breaks)) =
     w_attr w_pipe_breaks).
Proof.
  assert (Hok : startup_ok w_pipe_breaks) by (split; evaluate).
  assert (Hs : calls_succeed w_pipe_breaks 4)
    by (apply failing_calls_succeed; simpl; lia).
  assert (E : main 256 8 2 1 hello_then_stop w_pipe_breaks =
              (Raise (OSError 32),
               snd (linux_main hello_then_stop w_pipe_breaks)))
    by evaluate.
  assert (Hn : @Raise unit (OSError 32) <> Blocked) by discriminate.
  split; [exact Hok|]. split; [exact Hs|]. split; [evaluate|].
  exact (@attributes_restored_on_exit 256 8 2 1 hello_then_stop
           w_pipe_breaks _ _ Hok Hs E Hn).
Defined.

(** In that run the restoring call returns: the attributes are the saved
    ones although [main] ends with the exception of the write. *)
Example restored_after_broken_pipe :
  fst (linux_main hello_then_stop w_pipe_breaks) = Raise (OSError 32) /\
  w_attr (snd (linux_main hello_then_stop w_pipe_breaks)) = cooked /\
  w_out (snd (linux_main hello_then_stop w_pipe_breaks)) = header w0.
Proof. split; [evaluate | split; evaluate]. Qed.

(** C5 fails as stated: both files are reported readable, no call fails,
    and the loop ends at the end-of-stream test without the standard-input
    branch. *)
Lemma both_branches_handled_fails :
  ready 3 both_at_eof (linux_in_raw_mode w0) = [STDIN; 3] /\
  fst (loop 3 [both_at_eof] (linux_in_raw_mode w0)) = Ok AtEof /\
  w_out (snd (loop 3 [both_at_eof] (linux_in_raw_mode w0))) =
  w_out (linux_in_raw_mode w0) /\
  ~ both_branches_handled 3 both_at_eof [] (linux_in_raw_mode w0).
Proof.
  split; [evaluate|]. split; [evaluate|]. split; [evaluate|].
  intros [H _]. vm_compute in H. discriminate H.
Qed.

Lemma terminal_branch_runs_first_witness :
  let w := linux_in_raw_mode w0 in
  fd_lookup 3 (w_fds w) = Some FTty /\
  fd_lookup STDIN (w_fds w) = Some FStdin /\
  fd_lookup STDOUT (w_fds w) = Some FStdout /\
  wk_tty both_with_hello = true /\ wk_stdin both_with_hello = true /\
  calls_succeed w 4 /\ hello <> [] /\
  ends_loop AtStdin
    [ EvSelect [STDIN; 3] (Ok [STDIN; 3]); EvRead 3 64 (Ok hello);
      EvWrite STDOUT hello (Ok 5); EvWrite STDOUT [x00] (Ok 1) ]
    (hello ++ [x00]) 3 both_with_hello [] w.
Proof.
  intros w. subst w.
  assert (Hl : fd_lookup 3 (w_fds (linux_in_raw_mode w0)) = Some FTty)
    by evaluate.
  assert (Hi : fd_lookup STDIN (w_fds (linux_in_raw_mode w0)) = Some FStdin)
    by evaluate.
  assert (Ho : fd_lookup STDOUT (w_fds (linux_in_raw_mode w0)) =
               Some FStdout) by evaluate.
  assert (Ht : wk_tty both_with_hello = true) by evaluate.
  assert (Hi' : wk_stdin both_with_hello = true) by evaluate.
  assert (Hs : calls_succeed (linux_in_raw_mode w0) 4)
    by (apply quiet_calls_succeed; evaluate).
  assert (Hn : firstn 64 (w_tty_in (linux_in_raw_mode w0) ++
                          wk_arrive both_with_hello) <> [])
    by (vm_compute; discriminate).
  assert (Hn' : hello <> []) by discriminate.
  repeat (split; [assumption|]).
  pose proof (@terminal_branch_runs_first 3 both_with_hello []
                (linux_in_raw_mode w0) Hl Hi Ho Ht Hi') as H.
  destruct H as [Hdata _]. specialize (Hdata Hs Hn).
  same_as Hdata.
Defined.

Lemma read_error_ends_loop_silently_witness :
  let w := w_read_fails in
  let k := Wakeup hello true true in
  let r := try_finally (loop 3 [k] ;;; ret tt)
             (termios_tcsetattr 3 TCSAFLUSH cooked) w in
  fd_lookup 3 (w_fds w) = Some FTty /\ is_open w STDIN = true /\
  wk_tty k = true /\ calls_succeed w 1 /\
  w_faults w (length (w_calls w) + 1) = Some (OSError 5) /\
  ends_loop AtReadError
    [EvSelect [STDIN; 3] (Ok [STDIN; 3]); EvRead 3 64 (Raise (OSError 5))]
    [] 3 k [] w /\
  fst r = Ok tt /\ w_out (snd r) = w_out w /\ w_attr (snd r) = cooked.
Proof.
  intros w k r. subst w k r.
  assert (Hl : fd_lookup 3 (w_fds w_read_fails) = Some FTty) by evaluate.
  assert (Ho : is_open w_read_fails STDIN = true) by evaluate.
  assert (Ht : wk_tty (Wakeup hello true true) = true) by evaluate.
  assert (Hs : calls_succeed w_read_fails 1).
  { unfold w_read_fails. apply failing_calls_succeed. evaluate. }
  assert (Hf : w_faults w_read_fails (length (w_calls w_read_fails) + 1) =
               Some (OSError 5)) by evaluate.
  repeat (split; [assumption|]).
  pose proof (@read_error_ends_loop_silently 3 (Wakeup hello true true) []
                w_read_fails (OSError 5) cooked Hl Ho Ht Hs Hf) as H.
  cbv zeta in H. destruct H as [Hend _].
  split; [same_as Hend|]. split; [evaluate | split; evaluate].
Defined.

Lemma raw_mode_applied_with_flush_witness :
  startup_ok w_pending /\ calls_succeed w_pending 5 /\
  linux_main [] w_pending = (Blocked, linux_in_raw_mode w_pending) /\
  w_attr (linux_in_raw_mode w_pending) =
  Attr 1024 5 191 35376 15 15 [3; 28; 127] /\
  w_tty_in (linux_in_raw_mode w_pending) = [] /\
  w_tty_outq (linux_in_raw_mode w_pending) = [] /\
  w_tty_sent (linux_in_raw_mode w_pending) = [x0a].
Proof.
  assert (Hok : startup_ok w_pending) by (split; evaluate).
  assert (Hs : calls_succeed w_pending 5)
    by (apply quiet_calls_succeed; evaluate).
  split; [exact Hok|]. split; [exact Hs|].
  pose proof (@raw_mode_applied_with_flush 256 8 2 1 w_pending Hok Hs) as H.
  cbv zeta in H.
  destruct H as [Hrun [_ [_ [Ha [Hi [Ho [Hsent _]]]]]]].
  split; [exact Hrun|]. split; [same_as Ha|]. split; [exact Hi|].
  split; [exact Ho|]. same_as Hsent.
Defined.

(** C9 fails as stated: [main] returns and the descriptor of the terminal
    is still open. *)
Lemma descriptor_closed_at_exit_fails :
  fst (linux_main hello_then_stop w0) = Ok tt /\
  fd_lookup 3 (w_fds (snd (linux_main hello_then_stop w0))) = Some FTty /\
  ~ descriptor_closed_at_exit 256 8 2 1 hello_then_stop w0.
Proof.
  split; [evaluate|]. split; [evaluate|].
  unfold descriptor_closed_at_exit. evaluate.
Qed.

Lemma descriptor_left_open_witness :
  calls_succeed w0 1 /\
  w_fds (snd (linux_main hello_then_stop w0)) = (3, FTty) :: w_fds w0 /\
  fd_lookup 3 (w_fds (snd (linux_main hello_then_stop w0))) = Some FTty /\
  is_open (snd (linux_main hello_then_stop w0)) 3 = true.
Proof.
  assert (Hs : calls_succeed w0 1)
    by (apply quiet_calls_succeed; evaluate).
  split; [exact Hs|].
  pose proof (@descriptor_left_open 256 8 2 1 hello_then_stop w0 Hs) as H.
  cbv zeta in H. destruct H as [H1 [H2 H3]].
  split; [same_as H1 | split; [same_as H2 | same_as H3]].
Defined.

Lemma header_precedes_attribute_failure_witness :
  startup_ok w_getattr_fails /\ calls_succeed w_getattr_fails 3 /\
  w_faults w_getattr_fails (length (w_calls w_getattr_fails) + 3) =
  Some (TermiosError 5) /\
  fst (linux_main hello_then_stop w_getattr_fails) =
  Raise (TermiosError 5) /\
  w_out (snd (linux_main hello_then_stop w_getattr_fails)) =
  le32 80 ++ le32 24 /\
  w_attr (snd (linux_main hello_then_stop w_getattr_fails)) = cooked.
Proof.
  assert (Hok : startup_ok w_getattr_fails) by (split; evaluate).
  assert (Hs : calls_succeed w_getattr_fails 3)
    by (apply failing_calls_succeed; simpl; lia).
  assert (Hf : w_faults w_getattr_fails
                 (length (w_calls w_getattr_fails) + 3) =
               Some (TermiosError 5)) by evaluate.
  split; [exact Hok|]. split; [exact Hs|]. split; [exact Hf|].
  pose proof (@header_precedes_attribute_failure 256 8 2 1 hello_then_stop
                w_getattr_fails (TermiosError 5) Hok Hs Hf) as H.
  cbv zeta in H. destruct H as [Ho [Hout [Ha _]]].
  split; [exact Ho|]. split; [same_as Hout | same_as Ha].
Defined.

(** * Further properties of [main] *)

(** ** How [main] can end before the [try] statement *)

Lemma untouched_refl (w : world) : terminal_untouched w w.
Proof. split; reflexivity. Qed.

Lemma untouched_trans (w1 w2 w3 : world) :
  terminal_untouched w1 w2 -> terminal_untouched w2 w3 ->
  terminal_untouched w1 w3.
Proof. intros [] []. split; congruence. Qed.

(** The startup calls in the worlds [main] makes them in. *)
Lemma get_terminal_size_opened (w : world) :
  os_get_terminal_size (tty_fd w) (opened w) =
  match w_faults (opened w) (length (w_calls (opened w))) with
  | Some e =>
      (Raise e, log (EvGetTerminalSize (tty_fd w) (Raise e)) (opened w))
  | None => (Ok (TerminalSize (w_cols w) (w_rows w)), sized w)
  end.
Proof.
  unfold os_get_terminal_size, syscall.
  destruct (w_faults (opened w) (length (w_calls (opened w))));
    [reflexivity|].
  cbn [opened log set_fds w_fds]. rewrite lookup_tty_fd. reflexivity.
Qed.

Lemma write_header_sized (w : world) :
  os_write STDOUT (header w) (sized w) =
  match w_faults (sized w) (length (w_calls (sized w))) with
  | Some e =>
      (Raise e, log (EvWrite STDOUT (header w) (Raise e)) (sized w))
  | None =>
      match fd_lookup STDOUT (w_fds (sized w)) with
      | Some FStdout => (Ok 8, greeted w)
      | _ => (Raise (OSError EBADF),
              log (EvWrite STDOUT (header w) (Raise (OSError EBADF)))
                  (sized w))
      end
  end.
Proof.
  unfold os_write, syscall.
  destruct (w_faults (sized w) (length (w_calls (sized w))));
    [reflexivity|].
  destruct (fd_lookup STDOUT (w_fds (sized w))) as [[| |]|]; reflexivity.
Qed.

Lemma tcgetattr_greeted (w : world) :
  termios_tcgetattr (tty_fd w) (greeted w) =
  match w_faults (greeted w) (length (w_calls (greeted w))) with
  | Some e =>
      (Raise e, log (EvTcGetAttr (tty_fd w) (Raise e)) (greeted w))
  | None => (Ok (w_attr w), at_try w)
  end.
Proof.
  unfold termios_tcgetattr, syscall.
  destruct (w_faults (greeted w) (length (w_calls (greeted w))));
    [reflexivity|].
  cbn [greeted sized opened log set_out set_fds w_fds].
  rewrite lookup_tty_fd. reflexivity.
Qed.

Lemma frame_bind_body (fd : Z) (a : termios_attr) (script : list wakeup)
    (w : world) :
  forall new,
    frame w (snd ((termios_tcsetattr fd TCSAFLUSH new ;;;
                   loop fd script ;;; ret tt) w)).
Proof.
  intros new. revert w.
  change (respects frame (termios_tcsetattr fd TCSAFLUSH new ;;;
                          loop fd script ;;; ret tt)).
  apply respects_bind; [exact frame_trans | apply frame_tcsetattr | intros _].
  apply respects_bind; [exact frame_trans | apply frame_loop | intros _].
  apply respects_ret; exact frame_refl.
Qed.

Section StartupCases.

Variables ICRNL ECHO ICANON ISIG : Z.

Notation main := (main ICRNL ECHO ICANON ISIG).
Notation session := (session ICRNL ECHO ICANON ISIG).
Notation after_header := (after_header ICRNL ECHO ICANON ISIG).
Notation after_open := (after_open ICRNL ECHO ICANON ISIG).

(** Either a call before [termios.tcgetattr] fails, and then nothing was
    written and the terminal is as it was; or [termios.tcgetattr] fails
    after the header; or the [try] statement is entered. *)
Lemma main_startup_cases (script : list wakeup) (w : world) :
  (exists e w',
      main script w = (Raise e, w') /\
      terminal_untouched w w' /\ w_out w' = w_out w) \/
  (exists e,
      main script w =
      (Raise e, log (EvTcGetAttr (tty_fd w) (Raise e)) (greeted w))) \/
  main script w = session (tty_fd w) (w_attr w) script (at_try w).
Proof.
  destruct (main script w) as [o w'] eqn:E.
  destruct (w_faults w (length (w_calls w))) as [e0|] eqn:F0.
  { left. exists e0, w'. rewrite main_unfold in E. unfold bind, os_open in E.
    rewrite syscall_fault with (e := e0) in E by exact F0.
    inversion E; subst.
    split; [reflexivity|]. split; [split|]; reflexivity. }
  assert (H1 : calls_succeed w 1).
  { intros k Hk. assert (k = 0%nat) by lia. subst k.
    now rewrite Nat.add_0_r. }
  rewrite (run_open ICRNL ECHO ICANON ISIG script H1) in E.
  unfold after_open in E. unfold bind at 1 in E.
  rewrite get_terminal_size_opened in E.
  destruct (w_faults (opened w) (length (w_calls (opened w)))) as [e1|].
  { left. exists e1, w'. inversion E; subst.
    split; [reflexivity|]. split; [split|]; reflexivity. }
  unfold bind at 1, struct_pack_LL in E. cbn [columns lines] in E.
  destruct (is_uint32 (w_cols w) && is_uint32 (w_rows w)).
  2:{ left. exists StructError, w'. inversion E; subst.
      split; [reflexivity|]. split; [split|]; reflexivity. }
  cbn [ret] in E. fold (header w) in E.
  unfold bind at 1 in E. rewrite write_header_sized in E.
  destruct (w_faults (sized w) (length (w_calls (sized w)))) as [e2|].
  { left. exists e2, w'. inversion E; subst.
    split; [reflexivity|]. split; [split|]; reflexivity. }
  destruct (fd_lookup STDOUT (w_fds (sized w))) as [[| |]|];
    try (left; exists (OSError EBADF), w'; inversion E; subst;
         split; [reflexivity|]; split; [split|]; reflexivity).
  unfold after_header in E. unfold bind at 1 in E.
  rewrite tcgetattr_greeted in E.
  destruct (w_faults (greeted w) (length (w_calls (greeted w)))) as [e3|].
  - right. left. exists e3. exact (eq_sym E).
  - right. right. exact (eq_sym E).
Qed.

(** How the [try] statement ends when it ends. *)
Lemma session_exit (fd : Z) (old : termios_attr) (script : list wakeup)
    (w : world) o (w' : world) :
  session fd old script w = (o, w') -> o <> Blocked ->
  exists w1 res,
    frame w w1 /\
    termios_tcsetattr fd TCSAFLUSH old w1 = (res, w') /\
    (res = Ok tt -> w_attr w' = old) /\
    (forall e, res = Raise e -> o = Raise e /\ w_attr w' = w_attr w1).
Proof.
  unfold session, try_finally. intros E Ho.
  pose proof (@frame_bind_body fd old script w
                (raw_attr ICRNL ECHO ICANON ISIG old)) as Hf.
  destruct ((termios_tcsetattr fd TCSAFLUSH
               (raw_attr ICRNL ECHO ICANON ISIG old) ;;;
             loop fd script ;;; ret tt) w) as [ob w1].
  cbn [snd] in Hf.
  destruct (termios_tcsetattr fd TCSAFLUSH old w1) as [res w2] eqn:Ef.
  exists w1, res.
  assert (Hw : w' = w2).
  { destruct ob, res; inversion E; subst; try reflexivity;
      exfalso; apply Ho; reflexivity. }
  subst w2. split; [exact Hf|]. split; [exact Ef|].
  pose proof Ef as Ei. apply tcsetattr_inv in Ei.
  destruct Ei as [_ [_ [Ha Hr]]].
  split; [exact Ha|]. intros e He. subst res.
  split; [| now apply (Hr e)].
  destruct ob; inversion E; subst; try reflexivity.
  exfalso. apply Ho. reflexivity.
Qed.

End StartupCases.

Lemma tcsetattr_flush_ok (fd : Z) (a : termios_attr) (w : world) u w' :
  termios_tcsetattr fd TCSAFLUSH a w = (Ok u, w') ->
  w_attr w' = a /\ w_tty_in w' = [] /\ w_tty_outq w' = [] /\
  w_tty_sent w' = w_tty_sent w ++ w_tty_outq w /\ w_out w' = w_out w.
Proof.
  unfold termios_tcsetattr, syscall.
  destruct (w_faults w (length (w_calls w))); [discriminate|].
  destruct (fd_lookup fd (w_fds w)) as [[| |]|];
    intros E; inversion E; subst. repeat split.
Qed.

(** ** Startup failures, output and attributes in every run *)

Section EveryRun.

Variables ICRNL ECHO ICANON ISIG : Z.

Notation raw_attr := (raw_attr ICRNL ECHO ICANON ISIG).
Notation main := (main ICRNL ECHO ICANON ISIG).
Notation session := (session ICRNL ECHO ICANON ISIG).
Notation in_raw_mode := (in_raw_mode ICRNL ECHO ICANON ISIG).

(** X1.  Whatever fails and wherever, standard output receives either nothing
    or, first, the complete header of the terminal's geometry. *)
Theorem output_is_nothing_or_starts_with_header
    (script : list wakeup) (w : world) :
  let w' := snd (main script w) in
  w_out w' = w_out w \/
  exists rest, w_out w' = w_out w ++ header w ++ rest.
Proof.
  intros w'. subst w'.
  destruct (main_startup_cases ICRNL ECHO ICANON ISIG script w)
    as [[e [w1 [E [_ Ho]]]] | [[e E] | E]]; rewrite E; cbn [snd].
  - left. exact Ho.
  - right. exists []. cbn [log greeted set_out w_out].
    now rewrite app_nil_r.
  - right.
    destruct (frame_session ICRNL ECHO ICANON ISIG (tty_fd w) (w_attr w)
                script (at_try w)) as [_ _ _ _ _ [rest Hr]].
    exists rest. rewrite Hr. cbn [at_try greeted log set_out w_out].
    now rewrite <- app_assoc.
Qed.

(** X2.  In every run that ends, for whatever reason, the terminal has the
    attributes it had before, unless the restoring call itself raised;
    [main] then ends with the exception of that call. *)
Theorem attributes_differ_only_after_failed_restore
    (script : list wakeup) (w : world) :
  fst (main script w) <> Blocked ->
  w_attr (snd (main script w)) = w_attr w \/
  exists pre e,
    w_calls (snd (main script w)) =
    pre ++ [EvTcSetAttr (tty_fd w) TCSAFLUSH (w_attr w) (Raise e)] /\
    fst (main script w) = Raise e.
Proof.
  destruct (main_startup_cases ICRNL ECHO ICANON ISIG script w)
    as [[e [w1 [E [Hu _]]]] | [[e E] | E]]; rewrite E; cbn [fst snd].
  - intros _. left. exact (tu_attr Hu).
  - intros _. left. reflexivity.
  - intros Ho.
    destruct (session (tty_fd w) (w_attr w) script (at_try w))
      as [o w'] eqn:Es.
    cbn [fst snd] in *.
    destruct (@session_exit ICRNL ECHO ICANON ISIG _ _ _ _ _ _ Es Ho)
      as [w1 [res [_ [Ef [Ha Hr]]]]].
    pose proof Ef as Ei. apply tcsetattr_inv in Ei.
    destruct Ei as [[Hc _] [Hn _]].
    destruct res as [[]|e|].
    + left. now apply Ha.
    + right. exists (w_calls w1), e. split; [exact Hc|].
      now apply (Hr e).
    + exfalso. apply Hn. reflexivity.
Qed.

(** X3.  When [main] returns normally the terminal has its attributes of
    before, its output has been transmitted, and input that arrived and
    was not relayed has been discarded by the restoring call. *)
Theorem normal_return_restores_and_flushes
    (script : list wakeup) (w : world) :
  fst (main script w) = Ok tt ->
  w_attr (snd (main script w)) = w_attr w /\
  w_tty_in (snd (main script w)) = [] /\
  w_tty_outq (snd (main script w)) = [].
Proof.
  destruct (main_startup_cases ICRNL ECHO ICANON ISIG script w)
    as [[e [w1 [E _]]] | [[e E] | E]]; rewrite E; cbn [fst snd];
    try discriminate.
  destruct (session (tty_fd w) (w_attr w) script (at_try w))
    as [o w'] eqn:Es.
  cbn [fst snd]. intros Ho. subst o.
  destruct (@session_exit ICRNL ECHO ICANON ISIG _ _ _ _ _ _ Es
              ltac:(discriminate))
    as [w1 [res [_ [Ef [_ Hr]]]]].
  pose proof Ef as Ei. apply tcsetattr_inv in Ei.
  destruct Ei as [_ [Hn _]].
  destruct res as [u|e|].
  - destruct (@tcsetattr_flush_ok _ _ _ _ _ Ef) as [Ha [Hi [Hq _]]].
    repeat split; assumption.
  - destruct (Hr e eq_refl) as [Hc _]. discriminate Hc.
  - exfalso. apply Hn. reflexivity.
Qed.

End EveryRun.

(** ** The loop leaves the attributes alone *)

Lemma modes_refl (w : world) : modes_kept w w.
Proof. split; reflexivity. Qed.

Lemma modes_trans (w1 w2 w3 : world) :
  modes_kept w1 w2 -> modes_kept w2 w3 -> modes_kept w1 w3.
Proof. intros [] []. split; congruence. Qed.

Lemma modes_log (ev : event) (w : world) : modes_kept w (log ev w).
Proof. split; reflexivity. Qed.

Ltac modes_call :=
  apply respects_syscall; [exact modes_trans | exact modes_log | ];
  intros w; simpl;
  repeat match goal with
         | |- context [match ?x with _ => _ end] => destruct x
         end;
  simpl; split; reflexivity.

Lemma modes_write (fd : Z) (buf : bytes) :
  respects modes_kept (os_write fd buf).
Proof. modes_call. Qed.

Lemma modes_read (fd n : Z) : respects modes_kept (os_read fd n).
Proof. modes_call. Qed.

Lemma modes_select (rlist : list Z) (k : wakeup) :
  respects modes_kept (select_select rlist k).
Proof.
  intros w. unfold select_select.
  apply modes_trans with (set_tty_in (w_tty_in w ++ wk_arrive k) w);
    [split; reflexivity|].
  generalize (set_tty_in (w_tty_in w ++ wk_arrive k) w). clear w.
  change (respects modes_kept
            (syscall (EvSelect rlist)
               (fun w1 => if forallb (is_open w1) rlist
                          then (Ok (filter (readable k w1) rlist), w1)
                          else (Raise (OSError EBADF), w1)))).
  modes_call.
Qed.

Lemma modes_iteration (fd : Z) (k : wakeup) :
  respects modes_kept (iteration fd k).
Proof.
  unfold iteration.
  apply respects_bind; [exact modes_trans | apply modes_select | intros r].
  apply respects_bind; [exact modes_trans | | ].
  - destruct (py_in fd r); [| apply respects_ret; exact modes_refl].
    apply respects_bind; [exact modes_trans | | ].
    + apply respects_try_except; [exact modes_trans | | ].
      * apply respects_bind; [exact modes_trans | apply modes_read
                             | intros buf].
        apply respects_ret; exact modes_refl.
      * apply respects_ret; exact modes_refl.
    + intros [buf|]; [| apply respects_ret; exact modes_refl].
      destruct (len buf =? 0); [apply respects_ret; exact modes_refl|].
      apply respects_bind; [exact modes_trans | apply modes_write
                           | intros _].
      apply respects_ret; exact modes_refl.
  - intros [|s]; [| apply respects_ret; exact modes_refl].
    destruct (py_in STDIN r); [| apply respects_ret; exact modes_refl].
    apply respects_bind; [exact modes_trans | apply modes_write | intros _].
    apply respects_ret; exact modes_refl.
Qed.

Lemma modes_loop (fd : Z) (script : list wakeup) :
  respects modes_kept (loop fd script).
Proof.
  induction script as [|k script IH]; simpl.
  - intros w. apply modes_refl.
  - apply respects_bind; [exact modes_trans | apply modes_iteration
                         | intros [|s]].
    + exact IH.
    + apply respects_ret; exact modes_refl.
Qed.

Section WhileRunning.

Variables ICRNL ECHO ICANON ISIG : Z.

Notation raw_attr := (raw_attr ICRNL ECHO ICANON ISIG).
Notation main := (main ICRNL ECHO ICANON ISIG).
Notation in_raw_mode := (in_raw_mode ICRNL ECHO ICANON ISIG).

(** X4.  As long as [main] is in its loop, waiting, the terminal has the raw
    attributes: nothing in the loop changes them. *)
Theorem raw_mode_in_force_while_waiting (script : list wakeup) (w : world) :
  startup_ok w -> calls_succeed w 5 ->
  fst (main script w) = Blocked ->
  w_attr (snd (main script w)) = raw_attr (w_attr w).
Proof.
  intros Hok Hs. rewrite run_raw by assumption.
  unfold try_finally, bind, ret.
  pose proof (modes_loop (tty_fd w) script (in_raw_mode w)) as Hm.
  destruct (loop (tty_fd w) script (in_raw_mode w)) as [[s|e|] w1];
    cbn [snd] in Hm.
  - destruct (termios_tcsetattr (tty_fd w) TCSAFLUSH (w_attr w) w1)
      as [[u|e|] w2] eqn:Ef; cbn [fst]; try discriminate.
    apply tcsetattr_inv in Ef. destruct Ef as [_ [Hn _]].
    exfalso. apply Hn. reflexivity.
  - destruct (termios_tcsetattr (tty_fd w) TCSAFLUSH (w_attr w) w1)
      as [[u|e'|] w2] eqn:Ef; cbn [fst]; try discriminate.
    apply tcsetattr_inv in Ef. destruct Ef as [_ [Hn _]].
    exfalso. apply Hn. reflexivity.
  - intros _. cbn [snd]. rewrite (mk_attr Hm). reflexivity.
Qed.

(** X5.  When the loop has ended, by a [break] or by an exception, and the
    restoring call raises, [main] ends with the exception of the restoring
    call, whatever exception the loop ended with, and the terminal is left
    in raw mode. *)
Theorem failed_restore_leaves_raw_mode
    (script : list wakeup) (w : world) (e : exn) :
  startup_ok w -> calls_succeed w 5 ->
  let l := loop (tty_fd w) script (in_raw_mode w) in
  fst l <> Blocked ->
  w_faults w (length (w_calls (snd l))) = Some e ->
  fst (main script w) = Raise e /\
  w_attr (snd (main script w)) = raw_attr (w_attr w) /\
  w_out (snd (main script w)) = w_out (snd l).
Proof.
  intros Hok Hs l Hb Hf. subst l. rewrite run_raw by assumption.
  unfold try_finally, bind, ret.
  pose proof (modes_loop (tty_fd w) script (in_raw_mode w)) as Hm.
  pose proof (frame_loop (tty_fd w) script (in_raw_mode w)) as Hfr.
  destruct (loop (tty_fd w) script (in_raw_mode w)) as [o w1].
  cbn [fst snd] in *.
  assert (Ef : termios_tcsetattr (tty_fd w) TCSAFLUSH (w_attr w) w1 =
               (Raise e,
                log (EvTcSetAttr (tty_fd w) TCSAFLUSH (w_attr w) (Raise e))
                  w1)).
  { unfold termios_tcsetattr. apply syscall_fault.
    rewrite (fr_faults Hfr). exact Hf. }
  destruct o as [s|e0|]; [| | exfalso; apply Hb; reflexivity];
    rewrite Ef; cbn [fst snd log w_attr w_out];
    (split; [reflexivity | split; [exact (mk_attr Hm) | reflexivity]]).
Qed.

End WhileRunning.

(** ** The terminal's input is relayed in order, without loss *)

Lemma select_queue (rlist : list Z) (k : wakeup) (w : world) o w1 :
  select_select rlist k w = (o, w1) ->
  w_calls w1 = w_calls w ++ [EvSelect rlist o] /\
  w_fds w1 = w_fds w /\
  w_tty_in w1 = w_tty_in w ++ wk_arrive k /\ o <> Blocked.
Proof.
  unfold select_select, syscall. simpl.
  destruct (w_faults w (length (w_calls w)));
    [| destruct (forallb _ rlist)];
    intros E; inversion E; subst; simpl; repeat split; discriminate.
Qed.

Lemma read_queue (fd n : Z) (w : world) o w1 :
  fd_lookup fd (w_fds w) = Some FTty ->
  os_read fd n w = (o, w1) ->
  w_calls w1 = w_calls w ++ [EvRead fd n o] /\
  w_fds w1 = w_fds w /\ o <> Blocked /\
  concat (read_chunks [EvRead fd n o]) ++ w_tty_in w1 = w_tty_in w.
Proof.
  intros Hl. unfold os_read, syscall.
  destruct (w_faults w (length (w_calls w))).
  - intros E; inversion E; subst; simpl. repeat split; discriminate.
  - rewrite Hl. intros E; inversion E; subst; simpl.
    repeat split; try discriminate.
    rewrite app_nil_r. apply firstn_skipn.
Qed.

Lemma write_queue (fd : Z) (buf : bytes) (w : world) o w1 :
  os_write fd buf w = (o, w1) ->
  w_calls w1 = w_calls w ++ [EvWrite fd buf o] /\
  w_fds w1 = w_fds w /\ w_tty_in w1 = w_tty_in w /\ o <> Blocked.
Proof.
  unfold os_write, syscall.
  destruct (w_faults w (length (w_calls w)));
    [| destruct (fd_lookup fd (w_fds w)) as [[| |]|]];
    intros E; inversion E; subst; simpl; repeat split; discriminate.
Qed.

Ltac queue_leaf :=
  repeat match goal with
         | H : _ /\ _ |- _ => destruct H
         end;
  first
    [ match goal with
      | H : Blocked <> Blocked |- _ => exfalso; apply H; reflexivity
      end
    | let E := fresh "E" in
      intros E; inversion E; subst; clear E;
      eexists; split;
      [ repeat match goal with
               | H : w_calls _ = _ |- _ => rewrite H; clear H
               end;
        rewrite <- ?app_assoc; reflexivity
      | split;
        [ congruence
        | rewrite ?read_chunks_app, ?concat_app;
          cbn [read_chunks flat_map app concat] in *;
          rewrite ?app_nil_r in *;
          repeat match goal with
                 | H : w_tty_in _ = _ |- _ => rewrite H in *; clear H
                 end;
          rewrite <- ?app_assoc; congruence ] ] ].

Lemma iteration_conserves (fd : Z) (k : wakeup) (w : world) o w' :
  fd_lookup fd (w_fds w) = Some FTty ->
  iteration fd k w = (o, w') ->
  conserved (wk_arrive k) w w'.
Proof.
  intros Hl. unfold iteration, bind, try_except, ret, conserved.
  destruct (select_select [STDIN; fd] k w) as [[r|e|] w1] eqn:Es;
    apply select_queue in Es; [| queue_leaf | queue_leaf].
  assert (Hl1 : fd_lookup fd (w_fds w1) = Some FTty)
    by (destruct Es as [_ [Hf _]]; now rewrite Hf).
  destruct (py_in fd r).
  - destruct (os_read fd 64 w1) as [[buf|e|] w2] eqn:Er;
      apply (@read_queue fd 64 w1 _ _ Hl1) in Er; [| | queue_leaf].
    + destruct (len buf =? 0) eqn:El.
      * queue_leaf.
      * destruct (os_write STDOUT buf w2) as [[n|e|] w3] eqn:Ew;
          apply write_queue in Ew; [| queue_leaf | queue_leaf].
        destruct (py_in STDIN r); [| queue_leaf].
        destruct (os_write STDOUT [x00] w3) as [[n0|e|] w4] eqn:Ez;
          apply write_queue in Ez; queue_leaf.
    + queue_leaf.
  - destruct (py_in STDIN r); [| queue_leaf].
    destruct (os_write STDOUT [x00] w1) as [[n0|e|] w4] eqn:Ez;
      apply write_queue in Ez; queue_leaf.
Qed.

Lemma loop_conserves (fd : Z) (script : list wakeup) :
  forall w,
    fd_lookup fd (w_fds w) = Some FTty ->
    exists n,
      (n <= length script)%nat /\
      conserved (concat (map wk_arrive (firstn n script))) w
        (snd (loop fd script w)).
Proof.
  induction script as [|k script IH]; intros w Hl.
  - exists 0%nat. split; [apply Nat.le_refl|]. exists []. cbn.
    rewrite !app_nil_r. repeat split.
  - cbn [loop]. unfold bind.
    destruct (iteration fd k w) as [[[|s]|e|] w1] eqn:Ei;
      apply (@iteration_conserves fd k w _ _ Hl) in Ei.
    + destruct Ei as [e1 [C1 [F1 Q1]]].
      assert (Hl1 : fd_lookup fd (w_fds w1) = Some FTty)
        by now rewrite F1.
      destruct (IH w1 Hl1) as [n [Hn [e2 [C2 [F2 Q2]]]]].
      exists (S n). split; [simpl; lia|].
      exists (e1 ++ e2). split; [| split].
      * rewrite C2, C1. symmetry. apply app_assoc.
      * congruence.
      * cbn [firstn map concat].
        rewrite read_chunks_app, concat_app, <- app_assoc, Q2.
        rewrite !app_assoc, Q1. reflexivity.
    + exists 1%nat. split; [simpl; lia|].
      cbn [firstn map concat ret snd]. rewrite app_nil_r. exact Ei.
    + exists 1%nat. split; [simpl; lia|].
      cbn [firstn map concat snd]. rewrite app_nil_r. exact Ei.
    + exists 1%nat. split; [simpl; lia|].
      cbn [firstn map concat snd]. rewrite app_nil_r. exact Ei.
Qed.

(** X6.  The chunks read, in the order of the reads, followed by what is still
    pending on the terminal, are what was pending when the loop started
    followed by what the wakeups handled so far delivered: the loop drops,
    repeats and reorders nothing. *)
Theorem terminal_input_is_conserved
    (fd : Z) (script : list wakeup) (w : world) :
  fd_lookup fd (w_fds w) = Some FTty ->
  let w' := snd (loop fd script w) in
  exists n,
    (n <= length script)%nat /\
    concat (read_chunks (new_calls w w')) ++ w_tty_in w' =
    w_tty_in w ++ concat (map wk_arrive (firstn n script)).
Proof.
  intros Hl w'.
  destruct (@loop_conserves fd script w Hl) as [n [Hn [evs [C [_ Q]]]]].
  exists n. split; [exact Hn|]. subst w'.
  rewrite (@new_calls_app _ _ _ C). exact Q.
Qed.

(** ** The calls [main] makes *)

Lemma traced_refl (fd : Z) (w : world) : traced fd w w.
Proof. exists []. split; [now rewrite app_nil_r | constructor]. Qed.

Lemma traced_trans (fd : Z) (w1 w2 w3 : world) :
  traced fd w1 w2 -> traced fd w2 w3 -> traced fd w1 w3.
Proof.
  intros [e1 [C1 F1]] [e2 [C2 F2]]. exists (e1 ++ e2). split.
  - rewrite C2, C1. symmetry. apply app_assoc.
  - apply Forall_app. now split.
Qed.

Lemma traced_one (fd : Z) (ev : event) (w w' : world) :
  w_calls w' = w_calls w ++ [ev] -> well_formed_call fd ev ->
  traced fd w w'.
Proof. intros C H. exists [ev]. split; [exact C | now constructor]. Qed.

(** A bind whose continuation may rely on a property of the value. *)
Lemma respects_bind_post (R : world -> world -> Prop) {A B}
    (P : A -> Prop) (c : M A) (k : A -> M B) :
  (forall w1 w2 w3, R w1 w2 -> R w2 w3 -> R w1 w3) ->
  (forall w, R w (snd (c w)) /\ forall a, fst (c w) = Ok a -> P a) ->
  (forall a, P a -> respects R (k a)) ->
  respects R (bind c k).
Proof.
  intros Rt Hc Hk w. unfold bind. destruct (Hc w) as [Hr Hp].
  destruct (c w) as [[a|e|] w1]; cbn [fst snd] in *; try assumption.
  eapply Rt; [exact Hr | apply Hk, Hp; reflexivity].
Qed.

Lemma traced_select (fd : Z) (k : wakeup) :
  respects (traced fd) (select_select [STDIN; fd] k).
Proof.
  intros w. destruct (select_select [STDIN; fd] k w) as [o w1] eqn:E.
  apply select_inv in E. destruct E as [[C _] _].
  eapply traced_one; [exact C | reflexivity].
Qed.

Lemma traced_read (fd : Z) : respects (traced fd) (os_read fd 64).
Proof.
  intros w. destruct (os_read fd 64 w) as [o w1] eqn:E.
  apply os_read_inv in E. destruct E as [[C _] _].
  eapply traced_one; [exact C | split; reflexivity].
Qed.

Lemma traced_write (fd : Z) (buf : bytes) :
  1 <= len buf <= 64 -> respects (traced fd) (os_write STDOUT buf).
Proof.
  intros Hb w. destruct (os_write STDOUT buf w) as [o w1] eqn:E.
  apply os_write_inv in E. destruct E as [[C _] _].
  eapply traced_one; [exact C | split; [reflexivity | exact Hb]].
Qed.

Lemma traced_tcsetattr (fd : Z) (a : termios_attr) :
  respects (traced fd) (termios_tcsetattr fd TCSAFLUSH a).
Proof.
  intros w. destruct (termios_tcsetattr fd TCSAFLUSH a w) as [o w1] eqn:E.
  apply tcsetattr_inv in E. destruct E as [[C _] _].
  eapply traced_one; [exact C | split; reflexivity].
Qed.

Lemma syscall_calls {A} (mk : outcome A -> event)
    (run : world -> outcome A * world) (w : world) :
  (forall v, w_calls (snd (run v)) = w_calls v) ->
  w_calls (snd (syscall mk run w)) =
  w_calls w ++ [mk (fst (syscall mk run w))].
Proof.
  intros H. unfold syscall.
  destruct (w_faults w (length (w_calls w))); [reflexivity|].
  specialize (H w). destruct (run w) as [o w1]. cbn [fst snd log w_calls] in *.
  now rewrite H.
Qed.

Lemma traced_tcgetattr (fd : Z) : respects (traced fd) (termios_tcgetattr fd).
Proof.
  intros w. unfold termios_tcgetattr.
  eapply traced_one.
  - apply syscall_calls.
    intros v. destruct (fd_lookup fd (w_fds v)) as [[| |]|]; reflexivity.
  - reflexivity.
Qed.

Lemma traced_get_terminal_size (fd : Z) :
  respects (traced fd) (os_get_terminal_size fd).
Proof.
  intros w. unfold os_get_terminal_size.
  eapply traced_one.
  - apply syscall_calls.
    intros v. destruct (fd_lookup fd (w_fds v)) as [[| |]|]; reflexivity.
  - reflexivity.
Qed.

(** The guarded read of lines 29 to 32: a chunk it returns has at most 64
    bytes. *)
Lemma traced_guarded_read (fd : Z) (w : world) :
  let c := try_except (buf <- os_read fd 64 ;; ret (Some buf)) (ret None) in
  traced fd w (snd (c w)) /\
  forall got, fst (c w) = Ok got ->
              match got with Some buf => len buf <= 64 | None => True end.
Proof.
  cbv zeta. unfold try_except, bind, ret.
  pose proof (traced_read fd w) as Ht.
  destruct (os_read fd 64 w) as [[buf|e|] w1] eqn:E; cbn [fst snd] in *;
    (split; [exact Ht|]); intros got Hg; inversion Hg; subst; try exact I.
  apply os_read_inv in E. destruct E as [_ [_ Hb]].
  specialize (Hb buf eq_refl). unfold len. lia.
Qed.

Lemma traced_iteration (fd : Z) (k : wakeup) :
  respects (traced fd) (iteration fd k).
Proof.
  unfold iteration.
  apply respects_bind; [apply traced_trans | apply traced_select | intros r].
  apply respects_bind; [apply traced_trans | | ].
  - destruct (py_in fd r); [| apply respects_ret; apply traced_refl].
    apply respects_bind_post
      with (P := fun got => match got with
                            | Some buf => len buf <= 64
                            | None => True
                            end);
      [apply traced_trans | apply traced_guarded_read | ].
    intros [buf|] Hb; [| apply respects_ret; apply traced_refl].
    destruct (len buf =? 0) eqn:El; [apply respects_ret; apply traced_refl|].
    apply Z.eqb_neq in El.
    apply respects_bind; [apply traced_trans | | intros _].
    + apply traced_write. unfold len in *. lia.
    + apply respects_ret; apply traced_refl.
  - intros [|s]; [| apply respects_ret; apply traced_refl].
    destruct (py_in STDIN r); [| apply respects_ret; apply traced_refl].
    apply respects_bind; [apply traced_trans | | intros _].
    + apply traced_write. unfold len. simpl. lia.
    + apply respects_ret; apply traced_refl.
Qed.

Lemma traced_loop (fd : Z) (script : list wakeup) :
  respects (traced fd) (loop fd script).
Proof.
  induction script as [|k script IH]; simpl.
  - intros w. apply traced_refl.
  - apply respects_bind; [apply traced_trans | apply traced_iteration
                         | intros [|s]].
    + exact IH.
    + apply respects_ret; apply traced_refl.
Qed.

Lemma struct_pack_length (a b : Z) (w : world) :
  traced 0 w w /\
  forall hdr, fst (struct_pack_LL a b w) = Ok hdr -> len hdr = 8.
Proof.
  split; [apply traced_refl|]. unfold struct_pack_LL.
  destruct (is_uint32 a && is_uint32 b); intros hdr H; inversion H.
  reflexivity.
Qed.

Section CallShape.

Variables ICRNL ECHO ICANON ISIG : Z.

Notation main := (main ICRNL ECHO ICANON ISIG).
Notation session := (session ICRNL ECHO ICANON ISIG).
Notation after_header := (after_header ICRNL ECHO ICANON ISIG).
Notation after_open := (after_open ICRNL ECHO ICANON ISIG).

Lemma traced_session (fd : Z) (old : termios_attr) (script : list wakeup) :
  respects (traced fd) (session fd old script).
Proof.
  unfold session.
  apply respects_try_finally;
    [apply traced_trans | | apply traced_tcsetattr].
  apply respects_bind;
    [apply traced_trans | apply traced_tcsetattr | intros _].
  apply respects_bind; [apply traced_trans | apply traced_loop | intros _].
  apply respects_ret; apply traced_refl.
Qed.

Lemma traced_after_open (fd : Z) (script : list wakeup) :
  respects (traced fd) (after_open fd script).
Proof.
  unfold after_open, after_header.
  apply respects_bind;
    [apply traced_trans | apply traced_get_terminal_size | intros size].
  apply respects_bind_post with (P := fun hdr : bytes => len hdr = 8);
    [apply traced_trans | | ].
  - intros w. split.
    + unfold struct_pack_LL.
      destruct (is_uint32 (columns size) && is_uint32 (lines size));
        apply traced_refl.
    + apply struct_pack_length.
  - intros hdr Hh.
    apply respects_bind; [apply traced_trans | | intros _].
    + apply traced_write. lia.
    + apply respects_bind;
        [apply traced_trans | apply traced_tcgetattr | intros old].
      apply traced_session.
Qed.

(** X7.  Every call of every run of [main] is one of those the source
    shows. *)
Theorem calls_are_well_formed (script : list wakeup) (w : world) :
  Forall (well_formed_call (tty_fd w)) (new_calls w (snd (main script w))).
Proof.
  destruct (w_faults w (length (w_calls w))) as [e0|] eqn:F0.
  - rewrite main_unfold. unfold bind, os_open.
    rewrite syscall_fault with (e := e0) by exact F0. cbn [snd].
    rewrite (@new_calls_app w
               (log (EvOpen "/dev/tty" O_RDONLY (Raise e0)) w)
               [EvOpen "/dev/tty" O_RDONLY (Raise e0)] eq_refl).
    constructor; [split; reflexivity | constructor].
  - assert (H1 : calls_succeed w 1).
    { intros k Hk. assert (k = 0%nat) by lia. subst k.
      now rewrite Nat.add_0_r. }
    rewrite (run_open ICRNL ECHO ICANON ISIG script H1).
    destruct (traced_after_open (tty_fd w) script (opened w))
      as [evs [C F]].
    rewrite (@new_calls_app w _
               (EvOpen "/dev/tty" O_RDONLY (Ok (tty_fd w)) :: evs)).
    + constructor; [split; reflexivity | exact F].
    + rewrite C. cbn [opened log w_calls]. now rewrite <- app_assoc.
Qed.

End CallShape.

(** ** Wakeups one after the other *)



Lemma tty_is_not_stdin (fd : Z) (w : world) :
  fd_lookup fd (w_fds w) = Some FTty ->
  fd_lookup STDIN (w_fds w) = Some FStdin -> fd <> STDIN.
Proof. intros H1 H2 E. rewrite E in H1. congruence. Qed.

Lemma ready_tty_only (fd : Z) (k : wakeup) (w : world) :
  fd_lookup fd (w_fds w) = Some FTty ->
  fd_lookup STDIN (w_fds w) = Some FStdin ->
  wk_tty k = true -> wk_stdin k = false -> ready fd k w = [fd].
Proof.
  intros Hl Hi Ht Hs. unfold ready, readable. cbn [filter].
  now rewrite Hl, Hi, Ht, Hs.
Qed.

Lemma ready_stdin_only (fd : Z) (k : wakeup) (w : world) :
  fd_lookup fd (w_fds w) = Some FTty ->
  fd_lookup STDIN (w_fds w) = Some FStdin ->
  wk_tty k = false -> wk_stdin k = true -> ready fd k w = [STDIN].
Proof.
  intros Hl Hi Ht Hs. unfold ready, readable. cbn [filter].
  now rewrite Hl, Hi, Ht, Hs.
Qed.

Lemma py_in_single (x y : Z) : py_in x [y] = (x =? y).
Proof. unfold py_in. cbn. apply orb_false_r. Qed.

(** X9.  When only the terminal is readable and it has input, the next chunk,
    at most 64 bytes from the front of its queue, is written to standard
    output as it is, the rest stays queued, and the loop goes on to the
    next wakeup. *)
Theorem terminal_data_is_relayed (fd : Z) (k : wakeup)
    (script : list wakeup) (w : world) :
  fd_lookup fd (w_fds w) = Some FTty ->
  fd_lookup STDIN (w_fds w) = Some FStdin ->
  fd_lookup STDOUT (w_fds w) = Some FStdout ->
  wk_tty k = true -> wk_stdin k = false -> calls_succeed w 3 ->
  let chunk := firstn 64 (w_tty_in w ++ wk_arrive k) in
  chunk <> [] ->
  exists w2,
    loop fd (k :: script) w = loop fd script w2 /\
    w_out w2 = w_out w ++ chunk /\
    w_tty_in w2 = skipn 64 (w_tty_in w ++ wk_arrive k) /\
    w_calls w2 =
    w_calls w ++
    [ EvSelect [STDIN; fd] (Ok [fd]); EvRead fd 64 (Ok chunk);
      EvWrite STDOUT chunk (Ok (len chunk)) ] /\
    w_attr w2 = w_attr w /\ w_fds w2 = w_fds w /\ w_faults w2 = w_faults w.
Proof.
  intros Hl Hi Ho Ht Hs Hc chunk Hq. subst chunk.
  set (buf := firstn 64 (w_tty_in w ++ wk_arrive k)) in *.
  set (w1 := log (EvRead fd 64 (Ok buf))
               (set_tty_in (skipn 64 (w_tty_in w ++ wk_arrive k))
                  (woken fd k w))).
  assert (Hopen : is_open w STDIN = true)
    by (unfold is_open; now rewrite Hi).
  pose proof (@tty_is_not_stdin fd w Hl Hi) as Hne.
  exists (log (EvWrite STDOUT buf (Ok (len buf)))
            (set_out (w_out w1 ++ buf) w1)).
  split.
  - cbn [loop]. unfold iteration, bind, try_except, ret.
    rewrite select_ready
      by (try assumption; intros i Hj; apply Hc; lia).
    cbv beta iota.
    rewrite py_in_ready by assumption. cbv beta iota.
    fold (woken fd k w).
    rewrite read_after_select
      by (try assumption; intros i Hj; apply Hc; lia).
    fold buf. fold w1.
    rewrite (len_nonzero Hq).
    rewrite (@write_run STDOUT buf w1).
    + rewrite (@ready_tty_only fd k w Hl Hi Ht Hs), py_in_single.
      replace (STDIN =? fd) with false
        by (symmetry; apply Z.eqb_neq; congruence).
      reflexivity.
    + rewrite <- (Hc 2%nat) by lia. apply fault_at; [reflexivity|].
      subst w1. cbn [woken log set_out set_tty_in w_calls].
      rewrite !length_app. cbn [length]. lia.
    + exact Ho.
  - subst w1.
    cbn [woken log set_out set_tty_in w_calls w_out w_attr w_fds w_faults
         w_tty_in].
    rewrite (@ready_tty_only fd k w Hl Hi Ht Hs), <- !app_assoc.
    repeat split.
Qed.

(** X10.  When only standard input is readable, the loop writes the 0x00 byte
    and ends without reading the terminal: what the terminal has received
    stays in its queue. *)
Theorem stdin_ready_alone_stops_without_reading (fd : Z) (k : wakeup)
    (script : list wakeup) (w : world) :
  fd_lookup fd (w_fds w) = Some FTty ->
  fd_lookup STDIN (w_fds w) = Some FStdin ->
  fd_lookup STDOUT (w_fds w) = Some FStdout ->
  wk_tty k = false -> wk_stdin k = true -> calls_succeed w 2 ->
  ends_loop AtStdin
    [EvSelect [STDIN; fd] (Ok [STDIN]); EvWrite STDOUT [x00] (Ok 1)]
    [x00] fd k script w /\
  w_tty_in (snd (loop fd (k :: script) w)) = w_tty_in w ++ wk_arrive k.
Proof.
  intros Hl Hi Ho Ht Hs Hc.
  assert (Hopen : is_open w STDIN = true)
    by (unfold is_open; now rewrite Hi).
  pose proof (@tty_is_not_stdin fd w Hl Hi) as Hne.
  assert (E : loop fd (k :: script) w =
              (Ok AtStdin,
               log (EvWrite STDOUT [x00] (Ok 1))
                 (set_out (w_out (woken fd k w) ++ [x00]) (woken fd k w)))).
  { cbn [loop]. unfold iteration, bind, try_except, ret.
    rewrite select_ready
      by (try assumption; intros i Hj; apply Hc; lia).
    cbv beta iota.
    rewrite (@ready_stdin_only fd k w Hl Hi Ht Hs), !py_in_single.
    replace (fd =? STDIN) with false
      by (symmetry; apply Z.eqb_neq; congruence).
    change (STDIN =? STDIN) with true. cbv beta iota.
    rewrite <- (@ready_stdin_only fd k w Hl Hi Ht Hs). fold (woken fd k w).
    rewrite (@write_run STDOUT [x00] (woken fd k w)); [reflexivity | | exact Ho].
    rewrite <- (Hc 1%nat) by lia. apply fault_at; [reflexivity|].
    cbn [woken log set_tty_in w_calls]. now rewrite length_app. }
  split; [split|]; rewrite E;
    cbn [fst snd woken log set_out set_tty_in w_calls w_out w_attr
         w_fds w_faults w_tty_in];
    rewrite ?(@ready_stdin_only fd k w Hl Hi Ht Hs), <- ?app_assoc;
    reflexivity.
Qed.

(** ** The raw attributes *)

Lemma land_lnot_diag (x m : Z) :
  Z.land (Z.land x (Z.lnot m)) (Z.lnot m) = Z.land x (Z.lnot m).
Proof. now rewrite <- Z.land_assoc, Z.land_diag. Qed.

Lemma land_lnot_disjoint (x m : Z) :
  Z.land x m = 0 -> Z.land x (Z.lnot m) = x.
Proof.
  intros H. apply Z.bits_inj'. intros n Hn.
  rewrite Z.land_spec, Z.lnot_spec by exact Hn.
  assert (Hb : Z.testbit (Z.land x m) n = false)
    by (rewrite H; apply Z.bits_0).
  rewrite Z.land_spec in Hb.
  destruct (Z.testbit x n), (Z.testbit m n); try reflexivity.
  discriminate Hb.
Qed.

Section RawAttributes.

Variables ICRNL ECHO ICANON ISIG : Z.

(** X11.  Clearing the four flags twice is clearing them once, and on a
    terminal on which they are clear already the new attributes are the
    old ones: a bridge started in a raw terminal changes no attribute. *)
Theorem raw_attr_idempotent (a : termios_attr) :
  raw_attr ICRNL ECHO ICANON ISIG (raw_attr ICRNL ECHO ICANON ISIG a) =
  raw_attr ICRNL ECHO ICANON ISIG a /\
  (Z.land (iflag a) ICRNL = 0 ->
   Z.land (lflag a) (Z.lor (Z.lor ECHO ICANON) ISIG) = 0 ->
   raw_attr ICRNL ECHO ICANON ISIG a = a).
Proof.
  unfold raw_attr, list_copy, set_item0, set_item3.
  cbn [iflag oflag cflag lflag ispeed ospeed cc]. split.
  - now rewrite !land_lnot_diag.
  - intros Hi Hl. rewrite (land_lnot_disjoint _ _ Hi).
    rewrite (land_lnot_disjoint _ _ Hl). now destruct a.
Qed.

End RawAttributes.

(** ** Failures at startup *)

Section StartupFailures.

Variables ICRNL ECHO ICANON ISIG : Z.

Notation raw_attr := (raw_attr ICRNL ECHO ICANON ISIG).
Notation main := (main ICRNL ECHO ICANON ISIG).
Notation after_header := (after_header ICRNL ECHO ICANON ISIG).
Notation after_open := (after_open ICRNL ECHO ICANON ISIG).

(** X12.  When the open, the geometry query or the header write fails, [main]
    ends at once with the exception of that call: nothing has reached
    standard output and the attributes of the terminal were neither read
    nor changed. *)
Theorem early_failure_writes_nothing
    (script : list wakeup) (w : world) (k : nat) (e : exn) :
  startup_ok w -> (k < 3)%nat -> calls_succeed w k ->
  w_faults w (length (w_calls w) + k) = Some e ->
  fst (main script w) = Raise e /\
  w_out (snd (main script w)) = w_out w /\
  terminal_untouched w (snd (main script w)) /\
  length (new_calls w (snd (main script w))) = S k.
Proof.
  intros [Hout Hc Hr] Hk Hs Hf.
  destruct (main script w) as [o w'] eqn:E. cbn [fst snd].
  destruct k as [|[|[|k]]]; [| | | lia].
  - rewrite Nat.add_0_r in Hf.
    rewrite main_unfold in E. unfold bind, os_open in E.
    rewrite syscall_fault with (e := e) in E by exact Hf.
    inversion E; subst. split; [reflexivity|]. split; [reflexivity|].
    split; [split; reflexivity|].
    rewrite (@new_calls_app w (log (EvOpen "/dev/tty" O_RDONLY (Raise e)) w)
               [EvOpen "/dev/tty" O_RDONLY (Raise e)] eq_refl).
    reflexivity.
  - rewrite (run_open ICRNL ECHO ICANON ISIG script Hs) in E.
    unfold after_open in E. unfold bind at 1 in E.
    rewrite get_terminal_size_opened in E.
    replace (w_faults (opened w) (length (w_calls (opened w))))
      with (Some e) in E
      by (rewrite <- Hf; cbn [opened log set_fds w_faults w_calls];
          now rewrite length_app).
    inversion E; subst. split; [reflexivity|]. split; [reflexivity|].
    split; [split; reflexivity|].
    rewrite (@new_calls_app w _
               [EvOpen "/dev/tty" O_RDONLY (Ok (tty_fd w));
                EvGetTerminalSize (tty_fd w) (Raise e)]).
    + reflexivity.
    + cbn [opened log w_calls]. now rewrite <- app_assoc.
  - assert (H1 : calls_succeed w 1) by (intros i Hi; apply Hs; lia).
    rewrite (run_open ICRNL ECHO ICANON ISIG script H1) in E.
    unfold after_open in E. unfold bind at 1 in E.
    rewrite get_terminal_size_opened in E.
    replace (w_faults (opened w) (length (w_calls (opened w))))
      with (@None exn) in E
      by (rewrite <- (Hs 1%nat) by lia; cbn [opened log set_fds w_faults w_calls];
          now rewrite length_app).
    unfold bind at 1, struct_pack_LL in E. cbn [columns lines] in E.
    rewrite Hc, Hr in E. cbn [andb ret] in E. fold (header w) in E.
    unfold bind at 1 in E. rewrite write_header_sized in E.
    replace (w_faults (sized w) (length (w_calls (sized w))))
      with (Some e) in E
      by (rewrite <- Hf; cbn [sized opened log set_fds w_faults w_calls];
          rewrite !length_app; cbn [length]; f_equal; lia).
    inversion E; subst. split; [reflexivity|]. split; [reflexivity|].
    split; [split; reflexivity|].
    rewrite (@new_calls_app w _
               [EvOpen "/dev/tty" O_RDONLY (Ok (tty_fd w));
                EvGetTerminalSize (tty_fd w)
                  (Ok (TerminalSize (w_cols w) (w_rows w)));
                EvWrite STDOUT (header w) (Raise e)]).
    + reflexivity.
    + cbn [sized opened log w_calls]. now rewrite <- !app_assoc.
Qed.

(** X13.  When the call that is to switch the terminal to raw mode raises, the
    loop is not entered: no wait and no read is made, the restoring call
    is made all the same, and if it returns [main] ends with the exception
    of the first call, the attributes being the saved ones. *)
Theorem failed_switch_skips_loop
    (script : list wakeup) (w : world) (e : exn) :
  startup_ok w -> calls_succeed w 4 ->
  w_faults w (length (w_calls w) + 4) = Some e ->
  exists res,
    new_calls w (snd (main script w)) =
    [ EvOpen "/dev/tty" O_RDONLY (Ok (tty_fd w));
      EvGetTerminalSize (tty_fd w) (Ok (TerminalSize (w_cols w) (w_rows w)));
      EvWrite STDOUT (header w) (Ok 8);
      EvTcGetAttr (tty_fd w) (Ok (w_attr w));
      EvTcSetAttr (tty_fd w) TCSAFLUSH (raw_attr (w_attr w)) (Raise e);
      EvTcSetAttr (tty_fd w) TCSAFLUSH (w_attr w) res ] /\
    w_out (snd (main script w)) = w_out w ++ header w /\
    (res = Ok tt ->
     fst (main script w) = Raise e /\
     w_attr (snd (main script w)) = w_attr w).
Proof.
  intros Hok Hs Hf.
  destruct (main script w) as [o w'] eqn:E. cbn [fst snd].
  rewrite (run_tcgetattr ICRNL ECHO ICANON ISIG script Hok Hs) in E.
  unfold session, try_finally in E. unfold bind at 1 in E.
  assert (Hsw : termios_tcsetattr (tty_fd w) TCSAFLUSH
                  (raw_attr (w_attr w)) (at_try w) =
                (Raise e,
                 log (EvTcSetAttr (tty_fd w) TCSAFLUSH
                        (raw_attr (w_attr w)) (Raise e)) (at_try w))).
  { unfold termios_tcsetattr. apply syscall_fault. rewrite <- Hf.
    cbn [at_try greeted sized opened log set_out set_fds w_faults w_calls].
    rewrite !length_app. cbn [length]. f_equal. lia. }
  rewrite Hsw in E.
  destruct (termios_tcsetattr (tty_fd w) TCSAFLUSH (w_attr w)
              (log (EvTcSetAttr (tty_fd w) TCSAFLUSH
                      (raw_attr (w_attr w)) (Raise e)) (at_try w)))
    as [res w2] eqn:Ef.
  pose proof Ef as Ei. apply tcsetattr_inv in Ei.
  destruct Ei as [[Cc Co] [Hn [Ha _]]].
  exists res.
  assert (Hw : w' = w2) by (destruct res; now inversion E). subst w2.
  split; [| split].
  - apply new_calls_app. rewrite Cc.
    cbn [at_try greeted sized opened log set_out w_calls].
    rewrite <- !app_assoc. reflexivity.
  - rewrite Co. cbn [at_try greeted sized opened log set_out w_out].
    now rewrite app_nil_r.
  - intros Hr. subst res. inversion E; subst.
    split; [reflexivity | now apply Ha].
Qed.

End StartupFailures.

(** ** Standard input closed at startup *)

Lemma fd_lookup_none (fd : Z) (t : list (Z * file)) :
  fd_lookup fd t = None -> ~ In fd (map fst t).
Proof.
  induction t as [|[k f] t IH]; simpl; [tauto|].
  destruct (Z.eqb_spec k fd); [discriminate|].
  intros H [E|Hin]; [contradiction | now apply IH].
Qed.

Lemma lowest_unused_zero (used : list Z) :
  ~ In 0 used -> lowest_unused used = 0.
Proof.
  intros H. unfold lowest_unused.
  destruct (length used); [reflexivity|]. cbn [lowest_from].
  destruct (py_in 0 used) eqn:E; [| reflexivity].
  apply py_in_spec in E. contradiction.
Qed.

(** A wakeup on which the terminal has input and [STDIN] is among the
    descriptors returned. *)
Lemma loop_data_then_stdin fd k script w :
  fd_lookup fd (w_fds w) = Some FTty -> is_open w STDIN = true ->
  fd_lookup STDOUT (w_fds w) = Some FStdout ->
  wk_tty k = true -> py_in STDIN (ready fd k w) = true ->
  calls_succeed w 4 ->
  firstn 64 (w_tty_in w ++ wk_arrive k) <> [] ->
  ends_loop AtStdin
    [ EvSelect [STDIN; fd] (Ok (ready fd k w));
      EvRead fd 64 (Ok (firstn 64 (w_tty_in w ++ wk_arrive k)));
      EvWrite STDOUT (firstn 64 (w_tty_in w ++ wk_arrive k))
        (Ok (len (firstn 64 (w_tty_in w ++ wk_arrive k))));
      EvWrite STDOUT [x00] (Ok 1) ]
    (firstn 64 (w_tty_in w ++ wk_arrive k) ++ [x00])
    fd k script w.
Proof.
  intros Hl Hopen Ho Ht Hin Hc Hq.
  set (buf := firstn 64 (w_tty_in w ++ wk_arrive k)) in *.
  set (w2 := log (EvRead fd 64 (Ok buf))
               (set_tty_in (skipn 64 (w_tty_in w ++ wk_arrive k))
                  (woken fd k w))).
  set (w3 := log (EvWrite STDOUT buf (Ok (len buf)))
               (set_out (w_out w2 ++ buf) w2)).
  assert (E : loop fd (k :: script) w =
              (Ok AtStdin,
               log (EvWrite STDOUT [x00] (Ok 1))
                 (set_out (w_out w3 ++ [x00]) w3))).
  { cbn [loop]. unfold iteration, bind, try_except, ret.
    rewrite select_ready
      by (try assumption; intros i Hj; apply Hc; lia).
    cbv beta iota.
    rewrite py_in_ready by assumption. cbv beta iota.
    fold (woken fd k w).
    rewrite read_after_select
      by (try assumption; intros i Hj; apply Hc; lia).
    fold buf. fold w2.
    rewrite (len_nonzero Hq).
    rewrite (@write_run STDOUT buf w2).
    - fold w3. rewrite Hin. cbv beta iota.
      rewrite (@write_run STDOUT [x00] w3); [reflexivity | | exact Ho].
      rewrite <- (Hc 3%nat) by lia. apply fault_at; [reflexivity|].
      subst w3 w2. cbn [woken log set_out set_tty_in w_calls].
      rewrite !length_app. cbn [length]. lia.
    - rewrite <- (Hc 2%nat) by lia. apply fault_at; [reflexivity|].
      subst w2. cbn [woken log set_out set_tty_in w_calls].
      rewrite !length_app. cbn [length]. lia.
    - exact Ho. }
  split; rewrite E; subst w3 w2;
    cbn [fst snd woken log set_out set_tty_in w_calls w_out w_attr
         w_fds w_faults];
    rewrite <- ?app_assoc, ?app_nil_r; reflexivity.
Qed.

Section ClosedStdin.

Variables ICRNL ECHO ICANON ISIG : Z.

Notation in_raw_mode := (in_raw_mode ICRNL ECHO ICANON ISIG).

(** X14.  When descriptor 0 is not open at startup, the terminal is opened as
    descriptor 0, which is also the descriptor the loop takes for standard
    input.  The first wakeup on which the terminal has input then runs
    both branches: one chunk is relayed, the 0x00 byte is written and the
    loop ends. *)
Theorem closed_stdin_ends_after_first_chunk
    (k : wakeup) (script : list wakeup) (w : world) :
  fd_lookup STDIN (w_fds w) = None ->
  fd_lookup STDOUT (w_fds w) = Some FStdout ->
  calls_succeed w 9 -> wk_tty k = true -> wk_arrive k <> [] ->
  let chunk := firstn 64 (wk_arrive k) in
  tty_fd w = STDIN /\
  ends_loop AtStdin
    [ EvSelect [STDIN; STDIN] (Ok [STDIN; STDIN]);
      EvRead STDIN 64 (Ok chunk);
      EvWrite STDOUT chunk (Ok (len chunk));
      EvWrite STDOUT [x00] (Ok 1) ]
    (chunk ++ [x00]) STDIN k script (in_raw_mode w).
Proof.
  intros Hin Hout Hs Ht Ha chunk. subst chunk.
  assert (Hfd : tty_fd w = STDIN)
    by (apply lowest_unused_zero, fd_lookup_none, Hin).
  split; [exact Hfd|].
  assert (Hl : fd_lookup STDIN (w_fds (in_raw_mode w)) = Some FTty).
  { cbn [in_raw_mode at_try greeted sized opened log set_attr apply_when
         set_tty_in drain set_out set_fds w_fds].
    rewrite Hfd. reflexivity. }
  assert (Ho : fd_lookup STDOUT (w_fds (in_raw_mode w)) = Some FStdout).
  { cbn [in_raw_mode at_try greeted sized opened log set_attr apply_when
         set_tty_in drain set_out set_fds w_fds].
    now apply lookup_stdout_opened. }
  assert (Hopen : is_open (in_raw_mode w) STDIN = true)
    by (unfold is_open; now rewrite Hl).
  assert (Hc : calls_succeed (in_raw_mode w) 4).
  { intros i Hi.
    cbn [in_raw_mode at_try greeted sized opened log set_attr apply_when
         set_tty_in drain set_out set_fds w_faults w_calls].
    rewrite <- (Hs (5 + i)%nat) by lia. f_equal.
    rewrite !length_app. cbn [length]. lia. }
  assert (Hr : ready STDIN k (in_raw_mode w) = [STDIN; STDIN]).
  { unfold ready, readable. cbn [filter]. now rewrite Hl, Ht. }
  assert (Hq : firstn 64 (w_tty_in (in_raw_mode w) ++ wk_arrive k) <> []).
  { cbn [in_raw_mode log set_attr apply_when set_tty_in w_tty_in app].
    destruct (wk_arrive k); [contradiction | discriminate]. }
  pose proof (@loop_data_then_stdin STDIN k script (in_raw_mode w)
                Hl Hopen Ho Ht) as H.
  rewrite Hr in H. specialize (H eq_refl Hc Hq).
  exact H.
Qed.

End ClosedStdin.

(** ** The further properties at concrete environments *)

Lemma attributes_differ_only_after_failed_restore_witness :
  fst (linux_main hello_then_stop w_restore_fails) <> Blocked /\
  fst (linux_main hello_then_stop w_restore_fails) =
  Raise (TermiosError 5) /\
  w_attr (snd (linux_main hello_then_stop w_restore_fails)) <>
  w_attr w_restore_fails /\
  (w_attr (snd (main 256 8 2 1 hello_then_stop w_restore_fails)) =
   w_attr w_restore_fails \/
   exists pre e,
     w_calls (snd (main 256 8 2 1 hello_then_stop w_restore_fails)) =
     pre ++ [EvTcSetAttr (tty_fd w_restore_fails) TCSAFLUSH
               (w_attr w_restore_fails) (Raise e)] /\
     fst (main 256 8 2 1 hello_then_stop w_restore_fails) = Raise e).
Proof.
  assert (Hn : fst (main 256 8 2 1 hello_then_stop w_restore_fails) <>
               Blocked) by (vm_compute; discriminate).
  split; [exact Hn|]. split; [evaluate|].
  split; [vm_compute; discriminate|].
  exact (@attributes_differ_only_after_failed_restore 256 8 2 1
           hello_then_stop w_restore_fails Hn).
Defined.

Lemma normal_return_restores_and_flushes_witness :
  fst (linux_main typed_but_stopped w0) = Ok tt /\
  w_out (snd (linux_main typed_but_stopped w0)) = header w0 ++ [x00] /\
  w_attr (snd (main 256 8 2 1 typed_but_stopped w0)) = w_attr w0 /\
  w_tty_in (snd (main 256 8 2 1 typed_but_stopped w0)) = [] /\
  w_tty_outq (snd (main 256 8 2 1 typed_but_stopped w0)) = [].
Proof.
  assert (Ho : fst (main 256 8 2 1 typed_but_stopped w0) = Ok tt)
    by evaluate.
  split; [exact Ho|]. split; [evaluate|].
  exact (@normal_return_restores_and_flushes 256 8 2 1
           typed_but_stopped w0 Ho).
Defined.

Lemma raw_mode_in_force_while_waiting_witness :
  startup_ok w0 /\ calls_succeed w0 5 /\
  fst (main 256 8 2 1 [Wakeup hello true false] w0) = Blocked /\
  w_attr (snd (main 256 8 2 1 [Wakeup hello true false] w0)) =
  raw_attr 256 8 2 1 (w_attr w0).
Proof.
  assert (Hok : startup_ok w0) by (split; evaluate).
  assert (Hs : calls_succeed w0 5) by (apply quiet_calls_succeed; evaluate).
  assert (Hb : fst (main 256 8 2 1 [Wakeup hello true false] w0) = Blocked)
    by evaluate.
  split; [exact Hok|]. split; [exact Hs|]. split; [exact Hb|].
  exact (@raw_mode_in_force_while_waiting 256 8 2 1
           [Wakeup hello true false] w0 Hok Hs Hb).
Defined.

Lemma failed_restore_leaves_raw_mode_witness :
  startup_ok w_restore_fails /\ calls_succeed w_restore_fails 5 /\
  fst (loop (tty_fd w_restore_fails) hello_then_stop
         (in_raw_mode 256 8 2 1 w_restore_fails)) <> Blocked /\
  w_faults w_restore_fails
    (length (w_calls (snd (loop (tty_fd w_restore_fails) hello_then_stop
                             (in_raw_mode 256 8 2 1 w_restore_fails))))) =
  Some (TermiosError 5) /\
  fst (main 256 8 2 1 hello_then_stop w_restore_fails) =
  Raise (TermiosError 5) /\
  w_attr (snd (main 256 8 2 1 hello_then_stop w_restore_fails)) =
  raw_attr 256 8 2 1 (w_attr w_restore_fails) /\
  w_out (snd (main 256 8 2 1 hello_then_stop w_restore_fails)) =
  w_out (snd (loop (tty_fd w_restore_fails) hello_then_stop
                (in_raw_mode 256 8 2 1 w_restore_fails))).
Proof.
  assert (Hok : startup_ok w_restore_fails) by (split; evaluate).
  assert (Hs : calls_succeed w_restore_fails 5)
    by (apply failing_calls_succeed; simpl; lia).
  assert (Hb : fst (loop (tty_fd w_restore_fails) hello_then_stop
                      (in_raw_mode 256 8 2 1 w_restore_fails)) <> Blocked)
    by (vm_compute; discriminate).
  assert (Hf : w_faults w_restore_fails
                 (length (w_calls
                            (snd (loop (tty_fd w_restore_fails)
                                    hello_then_stop
                                    (in_raw_mode 256 8 2 1
                                       w_restore_fails))))) =
               Some (TermiosError 5)) by evaluate.
  split; [exact Hok|]. split; [exact Hs|]. split; [exact Hb|].
  split; [exact Hf|].
  exact (@failed_restore_leaves_raw_mode 256 8 2 1 hello_then_stop
           w_restore_fails (TermiosError 5) Hok Hs Hb Hf).
Defined.

Lemma terminal_input_is_conserved_witness :
  let w := linux_in_raw_mode w0 in
  let w' := snd (loop 3 long_input w) in
  fd_lookup 3 (w_fds w) = Some FTty /\
  read_chunks (new_calls w w') = [repeat x61 64; repeat x61 6] /\
  exists n,
    (n <= length long_input)%nat /\
    concat (read_chunks (new_calls w w')) ++ w_tty_in w' =
    w_tty_in w ++ concat (map wk_arrive (firstn n long_input)).
Proof.
  intros w w'. subst w w'.
  assert (Hl : fd_lookup 3 (w_fds (linux_in_raw_mode w0)) = Some FTty)
    by evaluate.
  split; [exact Hl|]. split; [evaluate|].
  exact (@terminal_input_is_conserved 3 long_input (linux_in_raw_mode w0)
           Hl).
Defined.

Lemma terminal_data_is_relayed_witness :
  let w := linux_in_raw_mode w0 in
  let k := Wakeup seventy true false in
  fd_lookup 3 (w_fds w) = Some FTty /\
  fd_lookup STDIN (w_fds w) = Some FStdin /\
  fd_lookup STDOUT (w_fds w) = Some FStdout /\
  wk_tty k = true /\ wk_stdin k = false /\ calls_succeed w 3 /\
  firstn 64 (w_tty_in w ++ wk_arrive k) <> [] /\
  exists w2,
    loop 3 [k; Wakeup [] false true] w = loop 3 [Wakeup [] false true] w2 /\
    w_out w2 = w_out w ++ repeat x61 64 /\
    w_tty_in w2 = repeat x61 6.
Proof.
  intros w k. subst w k.
  assert (Hl : fd_lookup 3 (w_fds (linux_in_raw_mode w0)) = Some FTty)
    by evaluate.
  assert (Hi : fd_lookup STDIN (w_fds (linux_in_raw_mode w0)) = Some FStdin)
    by evaluate.
  assert (Ho : fd_lookup STDOUT (w_fds (linux_in_raw_mode w0)) =
               Some FStdout) by evaluate.
  assert (Ht : wk_tty (Wakeup seventy true false) = true) by evaluate.
  assert (Hs : wk_stdin (Wakeup seventy true false) = false) by evaluate.
  assert (Hc : calls_succeed (linux_in_raw_mode w0) 3)
    by (apply quiet_calls_succeed; evaluate).
  assert (Hq : firstn 64 (w_tty_in (linux_in_raw_mode w0) ++
                          wk_arrive (Wakeup seventy true false)) <> [])
    by (vm_compute; discriminate).
  repeat (split; [assumption|]).
  destruct (@terminal_data_is_relayed 3 (Wakeup seventy true false)
              [Wakeup [] false true] (linux_in_raw_mode w0)
              Hl Hi Ho Ht Hs Hc Hq)
    as [w2 [E [Hout [Hin _]]]].
  exists w2. split; [exact E|]. split.
  - rewrite Hout. f_equal.
  - rewrite Hin. vm_compute. reflexivity.
Defined.

Lemma stdin_ready_alone_stops_without_reading_witness :
  let w := linux_in_raw_mode w0 in
  let k := Wakeup hello false true in
  fd_lookup 3 (w_fds w) = Some FTty /\
  fd_lookup STDIN (w_fds w) = Some FStdin /\
  fd_lookup STDOUT (w_fds w) = Some FStdout /\
  wk_tty k = false /\ wk_stdin k = true /\ calls_succeed w 2 /\
  ends_loop AtStdin
    [EvSelect [STDIN; 3] (Ok [STDIN]); EvWrite STDOUT [x00] (Ok 1)]
    [x00] 3 k [] w /\
  w_tty_in (snd (loop 3 [k] w)) = w_tty_in w ++ wk_arrive k.
Proof.
  intros w k. subst w k.
  assert (Hl : fd_lookup 3 (w_fds (linux_in_raw_mode w0)) = Some FTty)
    by evaluate.
  assert (Hi : fd_lookup STDIN (w_fds (linux_in_raw_mode w0)) = Some FStdin)
    by evaluate.
  assert (Ho : fd_lookup STDOUT (w_fds (linux_in_raw_mode w0)) =
               Some FStdout) by evaluate.
  assert (Ht : wk_tty (Wakeup hello false true) = false) by evaluate.
  assert (Hs : wk_stdin (Wakeup hello false true) = true) by evaluate.
  assert (Hc : calls_succeed (linux_in_raw_mode w0) 2)
    by (apply quiet_calls_succeed; evaluate).
  repeat (split; [assumption|]).
  exact (@stdin_ready_alone_stops_without_reading 3
           (Wakeup hello false true) [] (linux_in_raw_mode w0)
           Hl Hi Ho Ht Hs Hc).
Defined.

Lemma early_failure_writes_nothing_witness :
  startup_ok w_open_fails /\ (0 < 3)%nat /\ calls_succeed w_open_fails 0 /\
  w_faults w_open_fails (length (w_calls w_open_fails) + 0) =
  Some (OSError 6) /\
  fst (main 256 8 2 1 hello_then_stop w_open_fails) = Raise (OSError 6) /\
  w_out (snd (main 256 8 2 1 hello_then_stop w_open_fails)) =
  w_out w_open_fails /\
  terminal_untouched w_open_fails
    (snd (main 256 8 2 1 hello_then_stop w_open_fails)) /\
  length (new_calls w_open_fails
            (snd (main 256 8 2 1 hello_then_stop w_open_fails))) = 1%nat.
Proof.
  assert (Hok : startup_ok w_open_fails) by (split; evaluate).
  assert (Hk : (0 < 3)%nat) by lia.
  assert (Hs : calls_succeed w_open_fails 0) by (intros i Hi; lia).
  assert (Hf : w_faults w_open_fails (length (w_calls w_open_fails) + 0) =
               Some (OSError 6)) by evaluate.
  repeat (split; [assumption|]).
  exact (@early_failure_writes_nothing 256 8 2 1 hello_then_stop
           w_open_fails 0 (OSError 6) Hok Hk Hs Hf).
Defined.

Lemma failed_switch_skips_loop_witness :
  startup_ok w_switch_fails /\ calls_succeed w_switch_fails 4 /\
  w_faults w_switch_fails (length (w_calls w_switch_fails) + 4) =
  Some (TermiosError 5) /\
  length (new_calls w_switch_fails
            (snd (main 256 8 2 1 hello_then_stop w_switch_fails))) = 6%nat /\
  w_out (snd (main 256 8 2 1 hello_then_stop w_switch_fails)) =
  w_out w_switch_fails ++ header w_switch_fails /\
  fst (main 256 8 2 1 hello_then_stop w_switch_fails) =
  Raise (TermiosError 5).
Proof.
  assert (Hok : startup_ok w_switch_fails) by (split; evaluate).
  assert (Hs : calls_succeed w_switch_fails 4)
    by (apply failing_calls_succeed; simpl; lia).
  assert (Hf : w_faults w_switch_fails
                 (length (w_calls w_switch_fails) + 4) =
               Some (TermiosError 5)) by evaluate.
  repeat (split; [assumption|]).
  destruct (@failed_switch_skips_loop 256 8 2 1 hello_then_stop
              w_switch_fails (TermiosError 5) Hok Hs Hf)
    as [res [Hc [Ho _]]].
  split; [now rewrite Hc|]. split; [exact Ho | evaluate].
Defined.

Lemma closed_stdin_ends_after_first_chunk_witness :
  let k := Wakeup hello true false in
  fd_lookup STDIN (w_fds w_no_stdin) = None /\
  fd_lookup STDOUT (w_fds w_no_stdin) = Some FStdout /\
  calls_succeed w_no_stdin 9 /\ wk_tty k = true /\ wk_arrive k <> [] /\
  tty_fd w_no_stdin = STDIN /\
  ends_loop AtStdin
    [ EvSelect [STDIN; STDIN] (Ok [STDIN; STDIN]);
      EvRead STDIN 64 (Ok (firstn 64 (wk_arrive k)));
      EvWrite STDOUT (firstn 64 (wk_arrive k))
        (Ok (len (firstn 64 (wk_arrive k))));
      EvWrite STDOUT [x00] (Ok 1) ]
    (firstn 64 (wk_arrive k) ++ [x00]) STDIN k []
    (in_raw_mode 256 8 2 1 w_no_stdin).
Proof.
  intros k. subst k.
  assert (Hi : fd_lookup STDIN (w_fds w_no_stdin) = None) by evaluate.
  assert (Ho : fd_lookup STDOUT (w_fds w_no_stdin) = Some FStdout)
    by evaluate.
  assert (Hc : calls_succeed w_no_stdin 9)
    by (apply quiet_calls_succeed; evaluate).
  assert (Ht : wk_tty (Wakeup hello true false) = true) by evaluate.
  assert (Ha : wk_arrive (Wakeup hello true false) <> [])
    by (vm_compute; discriminate).
  repeat (split; [assumption|]).
  exact (@closed_stdin_ends_after_first_chunk 256 8 2 1
           (Wakeup hello true false) [] w_no_stdin Hi Ho Hc Ht Ha).
Defined.

(** With descriptor 0 closed, the whole run on one arrival of [hello]:
    header, [hello], 0x00, and [main] returns. *)
Example closed_stdin_run :
  fst (linux_main [Wakeup hello true false] w_no_stdin) = Ok tt /\
  w_out (snd (linux_main [Wakeup hello true false] w_no_stdin)) =
  le32 80 ++ le32 24 ++ hello ++ [x00].
Proof. split; evaluate. Qed.
